(** * AI Medical Consultant (app.py): the conversation state machine

    A shallow embedding of the Streamlit script [app.py]: the two gateway
    functions around the generative model, the two prompt builders, the
    session state, and one pass of the script over that state.  The script is
    written in a small state-and-exception monad, so that a pass reads like the
    Python text; the properties of the session are proved about that pass. *)

From Stdlib Require Import String Ascii List Bool Arith Lia ZArith.
Import ListNotations.
Local Open Scope list_scope.
Local Open Scope nat_scope.
Local Open Scope string_scope.
Set Warnings "-register-all".

(** ** Characters and strings

    A Python [str] is modelled by [string]; its characters are the code
    points below 256. *)

Module PyStr.

(** The double quote and the line feed, which cannot be typed in a literal. *)
Definition dq : string := String "034"%char EmptyString.
Definition nl : string := String "010"%char EmptyString.
Definition nl_char : ascii := "010"%char.

(** [str.isspace] on one character: TAB..CR, FS..US, the space, NEL and
    the no-break space. *)
Definition isspace (c : ascii) : bool :=
  let n := nat_of_ascii c in
  (Nat.leb 9 n && Nat.leb n 13) || (Nat.leb 28 n && Nat.leb n 32)
  || Nat.eqb n 133 || Nat.eqb n 160.

(** [str.lstrip()]. *)
Fixpoint lstrip (s : string) : string :=
  match s with
  | EmptyString => EmptyString
  | String c s' => if isspace c then lstrip s' else s
  end.

(** [str.rstrip()]: a character is dropped when it and all that follows
    it are white space. *)
Fixpoint rstrip (s : string) : string :=
  match s with
  | EmptyString => EmptyString
  | String c s' =>
      match rstrip s' with
      | EmptyString => if isspace c then EmptyString else String c EmptyString
      | r => String c r
      end
  end.

(** [str.strip()]. *)
Definition strip (s : string) : string := rstrip (lstrip s).

(** [s.replace(old, new)] for a non-empty [old]: the occurrences are found
    from the left and do not overlap.  [skip] counts the characters of a
    matched occurrence that are still to be passed over. *)
Fixpoint replace_from (old new : string) (skip : nat) (s : string) : string :=
  match s with
  | EmptyString => EmptyString
  | String c s' =>
      match skip with
      | S k => replace_from old new k s'
      | O =>
          if prefix old s
          then new ++ replace_from old new (String.length old - 1) s'
          else String c (replace_from old new 0 s')
      end
  end.

Definition replace (old new s : string) : string := replace_from old new 0 s.

(** [old in s]. *)
Fixpoint occurs (old s : string) : bool :=
  match s with
  | EmptyString => prefix old EmptyString
  | String _ s' => prefix old s || occurs old s'
  end.

(** [sep.join(l)]. *)
Fixpoint join (sep : string) (l : list string) : string :=
  match l with
  | [] => EmptyString
  | [x] => x
  | x :: rest => x ++ sep ++ join sep rest
  end.

(** [s.split("\n")]: the lines of [s]; the empty string has one (empty)
    line. *)
Fixpoint lines (s : string) : list string :=
  match s with
  | EmptyString => [EmptyString]
  | String c s' =>
      if Ascii.eqb c nl_char then EmptyString :: lines s'
      else match lines s' with
           | [] => [String c EmptyString]
           | l :: ls => String c l :: ls
           end
  end.

(** No line feed in [s]. *)
Fixpoint single_line (s : string) : bool :=
  match s with
  | EmptyString => true
  | String c s' => negb (Ascii.eqb c nl_char) && single_line s'
  end.

End PyStr.

(** ** Values that [json.loads] produces *)

Inductive json : Type :=
| JNull
| JBool (b : bool)
| JInt (n : Z)
| JFloat (literal : string)
| JString (s : string)
| JList (items : list json)
| JObject (fields : list (string * json)).

(** The exceptions a pass of the script can end with.  [RerunException] is
    what [st.rerun()] raises to abandon the pass; it is not an [Exception]. *)
Inductive exn : Type :=
| JSONDecodeError
| KeyError
| TypeError
| AttributeError
| IndexError
| StreamlitAPIException
| UnidentifiedImageError
| RerunException.

Inductive res (A : Type) : Type :=
| Ret (a : A)
| Exc (e : exn).
Arguments Ret {A} a.
Arguments Exc {A} e.

Module Py.

(** Lookup in a [dict], first binding of the key. *)
Fixpoint dict_find (d : list (string * json)) (k : string) : option json :=
  match d with
  | [] => None
  | (k', v) :: d' => if String.eqb k' k then Some v else dict_find d' k
  end.

(** The keys of a [dict], each once. *)
Fixpoint dict_keys (d : list (string * json)) : list string :=
  match d with
  | [] => []
  | (k, _) :: d' =>
      k :: filter (fun k' => negb (String.eqb k k')) (dict_keys d')
  end.

(** [data.get(key, default)]: only a [dict] has the method. *)
Definition get (data : json) (key : string) (default : json) : res json :=
  match data with
  | JObject d =>
      match dict_find d key with
      | Some v => Ret v
      | None => Ret default
      end
  | _ => Exc AttributeError
  end.

(** [len(v)]: lists, strings and dicts are sized. *)
Definition len (v : json) : res nat :=
  match v with
  | JList l => Ret (List.length l)
  | JString s => Ret (String.length s)
  | JObject d => Ret (List.length (dict_keys d))
  | _ => Exc TypeError
  end.

(** [v[i]] for an [int] index [i >= 0]. *)
Definition getitem_int (v : json) (i : nat) : res json :=
  match v with
  | JList l =>
      match nth_error l i with
      | Some x => Ret x
      | None => Exc IndexError
      end
  | JString s =>
      match String.get i s with
      | Some c => Ret (JString (String c EmptyString))
      | None => Exc IndexError
      end
  | JObject _ => Exc KeyError
  | _ => Exc TypeError
  end.

(** [v[k]] for a [str] index [k]. *)
Definition getitem_str (v : json) (k : string) : res json :=
  match v with
  | JObject d =>
      match dict_find d k with
      | Some x => Ret x
      | None => Exc KeyError
      end
  | _ => Exc TypeError
  end.

(** The elements [enumerate(v)] goes through. *)
Definition iter (v : json) : res (list json) :=
  match v with
  | JList l => Ret l
  | JString s =>
      Ret (map (fun c => JString (String c EmptyString)) (list_ascii_of_string s))
  | JObject d => Ret (map JString (dict_keys d))
  | _ => Exc TypeError
  end.

End Py.

(** ** The host library the script relies on

    [json.loads] and the [str()] conversion used by f-strings belong to the
    Python library, not to the repository: they are taken as given.  Of
    [str()] only its value on a [str] is needed. *)

Inductive loads_result : Type :=
| Loaded (data : json)
| DecodeError.

Class PyRuntime : Type := {
  json_loads : string -> loads_result;
  py_str : json -> string;
  py_str_string : forall s, py_str (JString s) = s
}.

(** ** Session state *)

(** An image as [PIL.Image] hands it over: an opaque handle. *)
Inductive Image : Type := ImageHandle (id : nat).

Record Session : Type := mkSession {
  conversation_started : bool;
  triage_questions : json;
  current_question_index : nat;
  conversation_history : list (json * json);
  final_analysis : option string;
  image : option Image
}.

(** The values the "Initialize Session State" block gives to absent keys. *)
Definition initial_session : Session :=
  {| conversation_started := false;
     triage_questions := JList [];
     current_question_index := 0;
     conversation_history := [];
     final_analysis := None;
     image := None |}.

Definition set_conversation_started (b : bool) (s : Session) : Session :=
  {| conversation_started := b;
     triage_questions := triage_questions s;
     current_question_index := current_question_index s;
     conversation_history := conversation_history s;
     final_analysis := final_analysis s;
     image := image s |}.

Definition set_triage_questions (q : json) (s : Session) : Session :=
  {| conversation_started := conversation_started s;
     triage_questions := q;
     current_question_index := current_question_index s;
     conversation_history := conversation_history s;
     final_analysis := final_analysis s;
     image := image s |}.

Definition set_current_question_index (i : nat) (s : Session) : Session :=
  {| conversation_started := conversation_started s;
     triage_questions := triage_questions s;
     current_question_index := i;
     conversation_history := conversation_history s;
     final_analysis := final_analysis s;
     image := image s |}.

Definition set_conversation_history (h : list (json * json)) (s : Session)
  : Session :=
  {| conversation_started := conversation_started s;
     triage_questions := triage_questions s;
     current_question_index := current_question_index s;
     conversation_history := h;
     final_analysis := final_analysis s;
     image := image s |}.

Definition set_final_analysis (a : option string) (s : Session) : Session :=
  {| conversation_started := conversation_started s;
     triage_questions := triage_questions s;
     current_question_index := current_question_index s;
     conversation_history := conversation_history s;
     final_analysis := a;
     image := image s |}.

Definition set_image (i : option Image) (s : Session) : Session :=
  {| conversation_started := conversation_started s;
     triage_questions := triage_questions s;
     current_question_index := current_question_index s;
     conversation_history := conversation_history s;
     final_analysis := final_analysis s;
     image := i |}.

(** ** What a pass does to the outside *)

Inductive effect : Type :=
| GeminiJSON (prompt : string) (img : option Image)
    (* model.generate_content from get_gemini_json_response *)
| GeminiText (prompt : string) (img : option Image)
    (* model.generate_content from get_gemini_text_response *)
| StError (msg : string)
| StImage (img : Image)
| StWrite (v : json)
| StMarkdown (text : string)
| StInfo (text : string).

(** ** What the outside gives to one pass *)

(** The file uploader: empty, a file [Image.open] rejects, or a file it
    opens. *)
Inductive upload : Type :=
| NoFile
| BadFile
| GoodFile (img : Image).

(** [model.generate_content(content)] followed by [response.text]: the text,
    or an [Exception] with its [str()]. *)
Inductive gen_result : Type :=
| GenText (text : string)
| GenRaise (message : string).

(** A button call: pressed, not pressed, or refused by the framework (for
    instance a key already in use). *)
Inductive button_result : Type :=
| Pressed
| NotPressed
| Refused.

Record Env : Type := mkEnv {
  uploaded_file : upload;
  start_button : bool;
  (* cols[i].button(option, key=f"q{index}_{option}"), by position and option *)
  option_button : nat -> json -> button_result;
  generate_content : string -> option Image -> gen_result
}.

(** ** The monad of a pass: session state, output so far, exceptions

    A raised exception keeps the session as it was when raised: Streamlit
    does not roll [st.session_state] back. *)

Record store : Type := mkStore {
  session : Session;
  output : list effect
}.

Definition M (A : Type) : Type := store -> res A * store.

Definition ret {A} (a : A) : M A := fun st => (Ret a, st).

Definition raise {A} (e : exn) : M A := fun st => (Exc e, st).

Definition bind {A B} (m : M A) (k : A -> M B) : M B :=
  fun st =>
    match m st with
    | (Ret a, st') => k a st'
    | (Exc e, st') => (Exc e, st')
    end.

Notation "x <- m ;; k" := (bind m (fun x => k))
  (at level 61, m at next level, right associativity).
Notation "m ;; k" := (bind m (fun _ => k))
  (at level 61, right associativity).

Definition lift {A} (r : res A) : M A := fun st => (r, st).

Definition read : M Session := fun st => (Ret (session st), st).

Definition modify (f : Session -> Session) : M unit :=
  fun st => (Ret tt, {| session := f (session st); output := output st |}).

Definition emit (e : effect) : M unit :=
  fun st => (Ret tt, {| session := session st; output := (output st ++ [e])%list |}).

(** [try: body except (classes): handler]. *)
Definition try_except {A} (body : M A) (caught : exn -> bool) (handler : M A)
  : M A :=
  fun st =>
    match body st with
    | (Exc e, st') => if caught e then handler st' else (Exc e, st')
    | r => r
    end.

Definition when (b : bool) (m : M unit) : M unit := if b then m else ret tt.

(** [st.rerun()]. *)
Definition st_rerun {A} : M A := raise RerunException.

(** ** Prompt builders *)

Module Prompt.
Import PyStr.

(** Prompt 1: the fixed request for triage questions. *)
Definition create_triage_prompt : string :=
  join nl
    ["";
     "    You are an AI Triage Assistant. Look at the provided medical image and generate 2-3 important, multiple-choice questions to ask the user for context.";
     "    Return a response in a strict JSON format with a single key " ++ dq ++ "questions" ++ dq ++ ".";
     "    The value of " ++ dq ++ "questions" ++ dq ++ " should be a list of objects, where each object has " ++ dq ++ "question_text" ++ dq ++ " and a list of " ++ dq ++ "options" ++ dq ++ ".";
     "    Example: {" ++ dq ++ "questions" ++ dq ++ ": [{" ++ dq ++ "question_text" ++ dq ++ ": " ++ dq ++ "How long has this been present?" ++ dq ++ ", " ++ dq ++ "options" ++ dq ++ ": [" ++ dq ++ "< 1 day" ++ dq ++ ", " ++ dq ++ "1-3 days" ++ dq ++ ", " ++ dq ++ "> 3 days" ++ dq ++ "]}]}";
     "    Respond ONLY with the JSON object.";
     "    "].

(** The text of the analysis prompt before the transcript. *)
Definition analysis_head : string :=
  join nl
    ["";
     "    You are an expert medical analyst AI. You will be provided with a medical image and a triage conversation transcript.";
     "    Your task is to provide a comprehensive, safe, and transparent final analysis based on BOTH the image and the conversation.";
     "";
     "    **Triage Conversation Transcript:**";
     "    "].

(** The text of the analysis prompt after the transcript. *)
Definition analysis_tail : string :=
  join nl
    ["";
     "";
     "    **Analysis Task:**";
     "    Provide a detailed analysis formatted with Markdown, including these exact sections:";
     "    ";
     "    1.  **Integrated Observation:** A brief summary combining visual findings with user-provided symptoms.";
     "    ";
     "    2.  **Key Visual Characteristics:** A bulleted list of objective visual details.";
     "";
     "    3.  **Potential Interpretation (Multi-Paragraph Format):**";
     "        - In this section, discuss the most likely interpretations in **separate paragraphs**.";
     "        - **First Paragraph:** Begin with the most likely possibility. State your confidence level (e.g., " ++ dq ++ "Confidence: High" ++ dq ++ ") and then, in a narrative style, explain the supporting visual and user evidence for this conclusion.";
     "        - **Subsequent Paragraph(s):** In a new paragraph, discuss a less likely possibility. State its confidence (e.g., " ++ dq ++ "Confidence: Low" ++ dq ++ ") and explain why it is less likely, referencing the available evidence.";
     "        - Discuss no more than three possibilities in total.";
     "";
     "    4.  **Crucial Next Steps & Safety Information:**";
     "    ";
     "    5.  **MANDATORY DISCLAIMER:**";
     "";
     "    Structure your response exactly as requested, with separate paragraphs for each interpretation.";
     "    "].

(** [f"Q: {q}\nA: {a}"] for one pair of the history. *)
Definition qa_block (qa : string * string) : string :=
  "Q: " ++ fst qa ++ nl ++ "A: " ++ snd qa.

(** [history_str]: the blocks of the history, joined by line feeds. *)
Definition history_str (conversation_history : list (string * string))
  : string :=
  join nl (map qa_block conversation_history).

(** Prompt 2: the request for the final analysis, around the transcript. *)
Definition create_final_analysis_prompt
    (conversation_history : list (string * string)) : string :=
  analysis_head ++ history_str conversation_history ++ analysis_tail.

End Prompt.

(** ** Core API functions (the model gateway) *)

Module Gateway.
Import PyStr.

Definition fence_json : string := "```json".
Definition fence : string := "```".

(** [response.text.strip().replace("```json", "").replace("```", "")]. *)
Definition cleaned_response (text : string) : string :=
  replace fence "" (replace fence_json "" (strip text)).

(** The backtick, and [.replace("```", "")] on its own. *)
Definition tick : ascii := "`"%char.

Definition unfence (s : string) : string := replace fence "" s.

(** [f'{{"error": "API communication failed: {e}"}}']. *)
Definition json_error (e : string) : string :=
  "{" ++ dq ++ "error" ++ dq ++ ": " ++ dq ++ "API communication failed: "
  ++ e ++ dq ++ "}".

(** [f"Error: API communication failed. {e}"]. *)
Definition text_error (e : string) : string :=
  "Error: API communication failed. " ++ e.

(** Gets a JSON response from Gemini, for generating questions.  The
    [try]/[except Exception] is the case analysis on what the call gave. *)
Definition get_gemini_json_response (env : Env) (prompt : string)
    (image : option Image) : M string :=
  emit (GeminiJSON prompt image) ;;
  match generate_content env prompt image with
  | GenText text => ret (cleaned_response text)
  | GenRaise e => ret (json_error e)
  end.

(** Gets a standard text/markdown response from Gemini, for the final
    analysis. *)
Definition get_gemini_text_response (env : Env) (prompt : string)
    (image : option Image) : M string :=
  emit (GeminiText prompt image) ;;
  match generate_content env prompt image with
  | GenText text => ret text
  | GenRaise e => ret (text_error e)
  end.

(** The string each function hands back, as a function of what the model
    call gave. *)
Definition json_reply (env : Env) (prompt : string) (image : option Image)
  : string :=
  match generate_content env prompt image with
  | GenText text => cleaned_response text
  | GenRaise e => json_error e
  end.

Definition text_reply (env : Env) (prompt : string) (image : option Image)
  : string :=
  match generate_content env prompt image with
  | GenText text => text
  | GenRaise e => text_error e
  end.

End Gateway.

(** ** The script *)

Definition is_none {A} (o : option A) : bool :=
  match o with
  | None => true
  | Some _ => false
  end.

Definition triage_failed_message : string :=
  "The AI failed to generate valid triage questions. Please try again.".

Definition analysis_placeholder : string :=
  "The final, evidence-based analysis will appear here after you complete the triage conversation.".

Section Script.
Context {rt : PyRuntime}.
Variable env : Env.

(** [json.loads(response_str)]. *)
Definition loads (response_str : string) : res json :=
  match json_loads response_str with
  | Loaded data => Ret data
  | DecodeError => Exc JSONDecodeError
  end.

(** [except (json.JSONDecodeError, KeyError)]. *)
Definition decode_or_key_error (e : exn) : bool :=
  match e with
  | JSONDecodeError | KeyError => true
  | _ => false
  end.

(** The body of [if st.button("2. Start Triage Conversation")]. *)
Definition start_triage : M unit :=
  let prompt := Prompt.create_triage_prompt in
  s <- read ;;
  response_str <- Gateway.get_gemini_json_response env prompt (image s) ;;
  try_except
    (data <- lift (loads response_str) ;;
     questions <- lift (Py.get data "questions" (JList [])) ;;
     modify (set_triage_questions questions) ;;
     modify (set_conversation_started true) ;;
     modify (set_current_question_index 0) ;;
     modify (set_conversation_history []) ;;
     st_rerun)
    decode_or_key_error
    (emit (StError triage_failed_message)).

(** [for q, a in st.session_state.conversation_history]: the chat so far. *)
Fixpoint show_history (h : list (json * json)) : M unit :=
  match h with
  | [] => ret tt
  | (q, a) :: rest => emit (StWrite q) ;; emit (StWrite a) ;; show_history rest
  end.

(** [for i, option in enumerate(q_options)]: one button per option; the
    first pressed one records the answer and reruns. *)
Fixpoint option_buttons (q_text : json) (i : nat) (options : list json)
  : M unit :=
  match options with
  | [] => ret tt
  | option :: rest =>
      match option_button env i option with
      | Refused => raise StreamlitAPIException
      | Pressed =>
          s <- read ;;
          modify (set_conversation_history
                    (conversation_history s ++ [(q_text, option)])%list) ;;
          s <- read ;;
          modify (set_current_question_index (current_question_index s + 1)) ;;
          st_rerun
      | NotPressed => option_buttons q_text (S i) rest
      end
  end.

(** The branch [current_question_index < len(triage_questions)]. *)
Definition ask_question : M unit :=
  s <- read ;;
  current_q <- lift (Py.getitem_int (triage_questions s)
                                    (current_question_index s)) ;;
  q_text <- lift (Py.getitem_str current_q "question_text") ;;
  q_options <- lift (Py.getitem_str current_q "options") ;;
  emit (StWrite q_text) ;;
  n <- lift (Py.len q_options) ;;
  (* st.columns(0) is refused *)
  (if Nat.eqb n 0 then raise StreamlitAPIException else ret tt) ;;
  options <- lift (Py.iter q_options) ;;
  option_buttons q_text 0 options.

(** The history as the f-string of the prompt sees it. *)
Definition transcript (h : list (json * json)) : list (string * string) :=
  map (fun qa => (py_str (fst qa), py_str (snd qa))) h.

(** The [else] branch: the final analysis. *)
Definition final_analysis_branch : M unit :=
  modify (set_conversation_started false) ;;
  s <- read ;;
  let final_prompt :=
    Prompt.create_final_analysis_prompt (transcript (conversation_history s)) in
  final_analysis_text <-
    Gateway.get_gemini_text_response env final_prompt (image s) ;;
  modify (set_final_analysis (Some final_analysis_text)) ;;
  st_rerun.

(** The body of [if st.session_state.conversation_started]. *)
Definition conversation : M unit :=
  s <- read ;;
  show_history (conversation_history s) ;;
  n <- lift (Py.len (triage_questions s)) ;;
  if Nat.ltb (current_question_index s) n
  then ask_question
  else final_analysis_branch.

(** The upload handler: the image is kept only when none is stored. *)
Definition store_upload (img : Image) : M unit :=
  s <- read ;;
  when (is_none (image s)) (modify (set_image (Some img))).

(** [with col1]. *)
Definition column1 : M unit :=
  match uploaded_file env with
  | NoFile => ret tt
  | BadFile => raise UnidentifiedImageError
  | GoodFile img =>
      store_upload img ;;
      emit (StImage img) ;;
      s <- read ;;
      when (negb (conversation_started s) && is_none (final_analysis s))
           (when (start_button env) start_triage) ;;
      s <- read ;;
      when (conversation_started s) conversation
  end.

(** [with col2]: a non-empty analysis is shown, else the placeholder. *)
Definition column2 : M unit :=
  s <- read ;;
  match final_analysis s with
  | Some (String c text) => emit (StMarkdown (String c text))
  | _ => emit (StInfo analysis_placeholder)
  end.

Definition script : M unit := column1 ;; column2.

(** One pass of the script over a session. *)
Definition run_script (s : Session) : res unit * store :=
  script {| session := s; output := [] |}.

Definition session_after (s : Session) : Session :=
  session (snd (run_script s)).

Definition output_of (s : Session) : list effect :=
  output (snd (run_script s)).

Definition status_of (s : Session) : res unit :=
  fst (run_script s).

End Script.

(** ** Phases of the session

    The spec names five phases; the script does not store a phase, it tests
    the flags.  [phase] decodes the flags in the order the script tests them.
    No phase is given to a started session whose [triage_questions] has no
    [len()]. *)

Inductive Phase : Type :=
| Idle
| AwaitingTriageStart
| AskingQuestion (i : nat)
| AnalysisPending
| Complete.

Definition phase (s : Session) : option Phase :=
  if conversation_started s then
    match Py.len (triage_questions s) with
    | Ret n =>
        if Nat.ltb (current_question_index s) n
        then Some (AskingQuestion (current_question_index s))
        else Some AnalysisPending
    | Exc _ => None
    end
  else
    match final_analysis s with
    | Some _ => Some Complete
    | None =>
        match image s with
        | None => Some Idle
        | Some _ => Some AwaitingTriageStart
        end
    end.

(** ** Steps of the session

    The four updates the script makes to the session, each with the guard
    under which the script reaches it. *)

Definition store_image (img : Image) (s : Session) : Session :=
  set_image (Some img) s.

Definition commit_triage (questions : json) (s : Session) : Session :=
  set_conversation_history []
    (set_current_question_index 0
       (set_conversation_started true
          (set_triage_questions questions s))).

Definition record_answer (q_text option : json) (s : Session) : Session :=
  let s1 :=
    set_conversation_history
      (conversation_history s ++ [(q_text, option)])%list s in
  set_current_question_index (current_question_index s1 + 1) s1.

Definition store_analysis (text : string) (s : Session) : Session :=
  set_final_analysis (Some text) (set_conversation_started false s).

Inductive step : Session -> Session -> Prop :=
| step_upload s img :
    image s = None ->
    step s (store_image img s)
| step_start s questions :
    conversation_started s = false ->
    final_analysis s = None ->
    step s (commit_triage questions s)
| step_answer s n q_text option :
    conversation_started s = true ->
    Py.len (triage_questions s) = Ret n ->
    current_question_index s < n ->
    step s (record_answer q_text option s)
| step_analysis s n text :
    conversation_started s = true ->
    Py.len (triage_questions s) = Ret n ->
    n <= current_question_index s ->
    step s (store_analysis text s).

Inductive steps : Session -> Session -> Prop :=
| steps_refl s : steps s s
| steps_step s1 s2 s3 : steps s1 s2 -> step s2 s3 -> steps s1 s3.

(** ** Sessions a user can reach: from the initial one, by passes *)

Inductive reachable {rt : PyRuntime} : Session -> Prop :=
| reach_initial : reachable initial_session
| reach_pass env s : reachable s -> reachable (session_after env s).

(** The passes of a whole interaction, one environment per pass, and all
    that they put out. *)
Fixpoint run_passes {rt : PyRuntime} (envs : list Env) (s : Session)
  : Session * list effect :=
  match envs with
  | [] => (s, [])
  | env :: rest =>
      let (s', out) := run_passes rest (session_after env s) in
      (s', (output_of env s ++ out)%list)
  end.

Definition is_narrative_call (e : effect) : bool :=
  match e with
  | GeminiText _ _ => true
  | _ => false
  end.

(** The calls of the narrative gateway among what was put out. *)
Definition narrative (out : list effect) : list effect :=
  filter is_narrative_call out.

Definition narrative_calls (out : list effect) : nat :=
  List.length (narrative out).

Definition is_error_shown (e : effect) : bool :=
  match e with
  | StError _ => true
  | _ => false
  end.

(** The pass Streamlit runs after [st.rerun()]: the widgets keep their state,
    and no button reads as pressed. *)
Definition rerun_env (env : Env) : Env :=
  {| uploaded_file := uploaded_file env;
     start_button := false;
     option_button := fun _ _ => NotPressed;
     generate_content := generate_content env |}.

(** A pass without a user action: no button is pressed. *)
Definition no_action (env : Env) : Prop :=
  start_button env = false /\
  forall i option, option_button env i option <> Pressed.

(** The session once the upload handler of a pass has run. *)
Definition after_upload (env : Env) (s : Session) : Session :=
  match uploaded_file env, image s with
  | GoodFile img, None => store_image img s
  | _, _ => s
  end.

(** What the chat loop writes for a history. *)
Definition shown (h : list (json * json)) : list effect :=
  flat_map (fun qa => [StWrite (fst qa); StWrite (snd qa)]) h.

(** What the row of option buttons comes to: the first button that is
    pressed or refused decides. *)
Inductive choice : Type :=
| Chosen (option : json)
| NoneChosen
| ButtonRefused.

Fixpoint first_pressed (env : Env) (i : nat) (options : list json) : choice :=
  match options with
  | [] => NoneChosen
  | o :: rest =>
      match option_button env i o with
      | Refused => ButtonRefused
      | Pressed => Chosen o
      | NotPressed => first_pressed env (S i) rest
      end
  end.

(** [questions = data.get("questions", [])] on a dict. *)
Definition questions_of (d : list (string * json)) : json :=
  match Py.dict_find d "questions" with
  | Some v => v
  | None => JList []
  end.

(** [current_question_index] within [0, len(triage_questions)]; where
    [triage_questions] has no [len()], the index has not moved from 0. *)
Definition index_in_range (s : Session) : Prop :=
  match Py.len (triage_questions s) with
  | Ret n => current_question_index s <= n
  | Exc _ => current_question_index s = 0
  end.

Definition analysis_count (s : Session) : nat :=
  match final_analysis s with
  | Some _ => 1
  | None => 0
  end.

(** The lines a transcript is meant to consist of. *)
Definition qa_lines (h : list (string * string)) : list string :=
  flat_map (fun qa => ["Q: " ++ fst qa; "A: " ++ snd qa]) h.

Definition single_line_pair (qa : string * string) : bool :=
  PyStr.single_line (fst qa) && PyStr.single_line (snd qa).

Definition count_lines_with (start : string) (s : string) : nat :=
  List.length (filter (prefix start) (PyStr.lines s)).

(** ** What one pass comes to

    The calls a pass makes and the replies it works with, as functions of
    the session, and the four ways a pass can end. *)

Definition column2_effect (s : Session) : effect :=
  match final_analysis s with
  | Some (String c text) => StMarkdown (String c text)
  | _ => StInfo analysis_placeholder
  end.

Definition triage_call (s : Session) : effect :=
  GeminiJSON Prompt.create_triage_prompt (image s).

Section Outcome.
Context {rt : PyRuntime}.
Variable env : Env.

Definition triage_reply (s : Session) : string :=
  Gateway.json_reply env Prompt.create_triage_prompt (image s).

Definition analysis_prompt (s : Session) : string :=
  Prompt.create_final_analysis_prompt (transcript (conversation_history s)).

Definition analysis_call (s : Session) : effect :=
  GeminiText (analysis_prompt s) (image s).

Definition analysis_reply (s : Session) : string :=
  Gateway.text_reply env (analysis_prompt s) (image s).

(** [outcome s out r]: started on session [s] with output [out], a part of
    the script ended as [r].  Either the session is untouched and no rerun
    is asked for, or the triage was committed, or an answer was recorded,
    or the analysis was stored. *)
Inductive outcome (s : Session) (out : list effect)
  : res unit * store -> Prop :=
| out_quiet r out' :
    r <> Exc RerunException ->
    narrative out' = narrative out ->
    outcome s out (r, mkStore s out')
| out_start d out' :
    start_button env = true ->
    conversation_started s = false ->
    final_analysis s = None ->
    json_loads (triage_reply s) = Loaded (JObject d) ->
    narrative out' = narrative out ->
    outcome s out
      (Exc RerunException, mkStore (commit_triage (questions_of d) s) out')
| out_answer n q o i out' :
    conversation_started s = true ->
    Py.len (triage_questions s) = Ret n ->
    current_question_index s < n ->
    option_button env i o = Pressed ->
    narrative out' = narrative out ->
    outcome s out (Exc RerunException, mkStore (record_answer q o s) out')
| out_analysis n out' :
    conversation_started s = true ->
    Py.len (triage_questions s) = Ret n ->
    n <= current_question_index s ->
    narrative out' = (narrative out ++ [analysis_call s])%list ->
    outcome s out
      (Exc RerunException, mkStore (store_analysis (analysis_reply s) s) out').

End Outcome.

(** What holds of the session between passes: the history is as long as
    the index, the index is in range, and no analysis is stored while a
    conversation is going on. *)
Definition coherent (s : Session) : Prop :=
  List.length (conversation_history s) = current_question_index s
  /\ index_in_range s
  /\ (conversation_started s = true -> final_analysis s = None).

(** ** A runtime for the examples

    [sample_loads] agrees with [json.loads] on the replies used in the
    examples below, and [sample_str] with [str()] on strings. *)

Module Sample.
Import PyStr.

Definition reply_duration : string :=
  "{" ++ dq ++ "questions" ++ dq ++ ":[{" ++ dq ++ "question_text" ++ dq
  ++ ":" ++ dq ++ "Duration?" ++ dq ++ "," ++ dq ++ "options" ++ dq ++ ":["
  ++ dq ++ "<1d" ++ dq ++ "," ++ dq ++ "1-3d" ++ dq ++ "," ++ dq ++ ">3d"
  ++ dq ++ "]}]}".

Definition data_duration : json :=
  JObject
    [("questions",
      JList
        [JObject
           [("question_text", JString "Duration?");
            ("options", JList [JString "<1d"; JString "1-3d"; JString ">3d"])]])].

Definition reply_no_questions : string :=
  "{" ++ dq ++ "questions" ++ dq ++ ": []}".

Definition reply_empty_object : string := "{}".

Definition reply_list : string := "[]".

Definition reply_garbage : string := "I cannot help with that.".

Definition reply_number : string :=
  "{" ++ dq ++ "questions" ++ dq ++ ": 5}".

Definition sample_loads (response_str : string) : loads_result :=
  if String.eqb response_str reply_duration then Loaded data_duration
  else if String.eqb response_str reply_no_questions
       then Loaded (JObject [("questions", JList [])])
  else if String.eqb response_str reply_empty_object then Loaded (JObject [])
  else if String.eqb response_str reply_list then Loaded (JList [])
  else if String.eqb response_str reply_number
       then Loaded (JObject [("questions", JInt 5)])
  else DecodeError.

Definition sample_str (v : json) : string :=
  match v with
  | JString s => s
  | _ => EmptyString
  end.

Definition runtime : PyRuntime :=
  {| json_loads := sample_loads;
     py_str := sample_str;
     py_str_string := fun s => eq_refl |}.

Definition img1 : Image := ImageHandle 1.
Definition img2 : Image := ImageHandle 2.

(** An environment: the uploader's file, the start button, the pressed
    option (if any) and what the model answers to every call. *)
Definition env_of (file : upload) (start : bool) (pressed : option json)
    (answer : gen_result) : Env :=
  {| uploaded_file := file;
     start_button := start;
     option_button := fun _ o =>
       match pressed, o with
       | Some (JString p), JString x =>
           if String.eqb p x then Pressed else NotPressed
       | _, _ => NotPressed
       end;
     generate_content := fun _ _ => answer |}.

(** Sessions and environments of the scenario "upload, start, answer". *)
Definition questions_duration : json :=
  JList
    [JObject
       [("question_text", JString "Duration?");
        ("options", JList [JString "<1d"; JString "1-3d"; JString ">3d"])]].

Definition s_uploaded : Session := store_image img1 initial_session.

Definition s_asking : Session := commit_triage questions_duration s_uploaded.

Definition s_answered : Session :=
  record_answer (JString "Duration?") (JString "1-3d") s_asking.

Definition s_no_questions : Session := commit_triage (JList []) s_uploaded.

Definition env_idle : Env :=
  env_of (GoodFile img1) false None (GenText "Analysis text").

Definition env_other_file : Env :=
  env_of (GoodFile img2) false None (GenText "Analysis text").

Definition env_start_duration : Env :=
  env_of (GoodFile img1) true None (GenText reply_duration).

Definition env_start_no_questions : Env :=
  env_of (GoodFile img1) true None (GenText reply_no_questions).

Definition env_start_garbage : Env :=
  env_of (GoodFile img1) true None (GenText reply_garbage).

Definition env_start_list : Env :=
  env_of (GoodFile img1) true None (GenText reply_list).

Definition env_answer : Env :=
  env_of (GoodFile img1) false (Some (JString "1-3d")) (GenText "Analysis text").

Definition env_start_number : Env :=
  env_of (GoodFile img1) true None (GenText reply_number).

Definition env_answer_model_down : Env :=
  env_of (GoodFile img1) false (Some (JString "1-3d"))
    (GenRaise "503 unavailable").

(** A history whose one question carries line feeds. *)
Definition history_with_line_feeds : list (string * string) :=
  [("x" ++ nl ++ "A: y" ++ nl ++ "Q: z", "w")].

End Sample.

(** ** Further notions: gateway calls, begun conversations, users, raw state *)

Definition is_gateway_call (e : effect) : bool :=
  match e with
  | GeminiJSON _ _ | GeminiText _ _ => true
  | _ => false
  end.

Definition gateway_calls (out : list effect) : nat :=
  List.length (filter is_gateway_call out).

(** Output without a gateway call. *)
Definition quiet (out : list effect) : Prop :=
  Forall (fun e => is_gateway_call e = false) out.

Section PassCalls.
Context {rt : PyRuntime}.
Variable env : Env.

(** The gateway calls of one pass: none, the triage call, or the analysis
    call, each under the guard of its branch. *)
Inductive pass_calls (s : Session) : list effect -> Prop :=
| calls_none out :
    quiet out ->
    pass_calls s out
| calls_triage before after :
    quiet before -> quiet after ->
    conversation_started s = false ->
    final_analysis s = None ->
    start_button env = true ->
    pass_calls s (before ++ triage_call (after_upload env s) :: after)
| calls_analysis before after n :
    quiet before -> quiet after ->
    conversation_started s = true ->
    Py.len (triage_questions s) = Ret n ->
    n <= current_question_index s ->
    pass_calls s (before ++ analysis_call (after_upload env s) :: after).

End PassCalls.

(** A conversation that has begun: started, or already analysed. *)
Definition engaged (s : Session) : Prop :=
  conversation_started s = true \/ final_analysis s <> None.

(** Before any triage the history is empty and the index is 0, and a
    conversation that has begun has an image. *)
Definition settled (s : Session) : Prop :=
  (conversation_started s = false -> final_analysis s = None ->
   conversation_history s = [] /\ current_question_index s = 0)
  /\ (engaged s -> image s <> None).

(** A question as the triage prompt asks for it. *)
Definition question (spec : string * list string) : json :=
  JObject [("question_text", JString (fst spec));
           ("options", JList (map JString (snd spec)))].

(** The user who presses the option labelled [choice]: a good file in the
    uploader, and the model answering [answer] to any call. *)
Definition choosing (img : Image) (answer : gen_result) (choice : string)
  : Env :=
  {| uploaded_file := GoodFile img;
     start_button := false;
     option_button := fun _ o =>
       match o with
       | JString label => if String.eqb choice label then Pressed else NotPressed
       | _ => NotPressed
       end;
     generate_content := fun _ _ => answer |}.

(** The pair the answer handler records for a question and a choice. *)
Definition answered (qc : (string * list string) * string) : json * json :=
  (JString (fst (fst qc)), JString (snd qc)).

(** [st.session_state] before the "Initialize Session State" block has run:
    each key is absent or holds a value. *)
Record RawState : Type := mkRaw {
  raw_conversation_started : option bool;
  raw_triage_questions : option json;
  raw_current_question_index : option nat;
  raw_conversation_history : option (list (json * json));
  raw_final_analysis : option (option string);
  raw_image : option (option Image)
}.

(** [if key not in st.session_state: st.session_state.key = default]. *)
Definition setdefault {A} (current : option A) (default : A) : option A :=
  match current with
  | Some v => Some v
  | None => Some default
  end.

(** The "Initialize Session State" block. *)
Definition initialize_session_state (r : RawState) : RawState :=
  {| raw_conversation_started := setdefault (raw_conversation_started r) false;
     raw_triage_questions := setdefault (raw_triage_questions r) (JList []);
     raw_current_question_index := setdefault (raw_current_question_index r) 0;
     raw_conversation_history := setdefault (raw_conversation_history r) [];
     raw_final_analysis := setdefault (raw_final_analysis r) None;
     raw_image := setdefault (raw_image r) None |}.

Definition raw_of_session (s : Session) : RawState :=
  {| raw_conversation_started := Some (conversation_started s);
     raw_triage_questions := Some (triage_questions s);
     raw_current_question_index := Some (current_question_index s);
     raw_conversation_history := Some (conversation_history s);
     raw_final_analysis := Some (final_analysis s);
     raw_image := Some (image s) |}.

Definition raw_empty : RawState :=
  {| raw_conversation_started := None;
     raw_triage_questions := None;
     raw_current_question_index := None;
     raw_conversation_history := None;
     raw_final_analysis := None;
     raw_image := None |}.

(** The session the script works on, when every key is there. *)
Definition session_of_raw (r : RawState) : option Session :=
  match raw_conversation_started r, raw_triage_questions r,
        raw_current_question_index r, raw_conversation_history r,
        raw_final_analysis r, raw_image r with
  | Some st, Some q, Some i, Some h, Some f, Some im =>
      Some (mkSession st q i h f im)
  | _, _, _, _, _, _ => None
  end.

(** ** Further sessions and environments for the examples *)

Module Cases.
Import Sample.

Definition env_start_other_file : Env :=
  env_of (GoodFile img2) true None (GenText reply_duration).

Definition env_no_file_pressing : Env :=
  env_of NoFile true (Some (JString "1-3d")) (GenText "Analysis text").

Definition env_start_empty_object : Env :=
  env_of (GoodFile img1) true None (GenText reply_empty_object).

Definition s_complete_empty : Session := store_analysis "" s_answered.

Definition question_without_options : json :=
  JObject [("question_text", JString "Duration?")].

Definition s_no_options : Session :=
  commit_triage (JList [question_without_options]) s_uploaded.

Definition specs_two : list (string * list string) :=
  [("Duration?", ["<1d"; "1-3d"]); ("Pain?", ["yes"; "no"])].

Definition choices_two : list string := ["1-3d"; "no"].

Definition passes_to_asking : list Env := [env_idle; env_start_duration].

Definition passes_to_complete : list Env :=
  [env_idle; env_start_duration; env_answer; rerun_env env_answer].

End Cases.

(** * Properties *)

(** ** Strings: prefixes, fences and lines *)

Section StringFacts.
Import PyStr Gateway.

Lemma prefix_String a s1 b s2 :
  prefix (String a s1) (String b s2) = Ascii.eqb a b && prefix s1 s2.
Proof.
  cbn. destruct (ascii_dec a b) as [->|N].
  - now rewrite Ascii.eqb_refl.
  - apply Ascii.eqb_neq in N. now rewrite N.
Qed.

Lemma prefix_empty s : prefix EmptyString s = true.
Proof. now destruct s. Qed.

Lemma append_assoc (a b c : string) : (a ++ b) ++ c = a ++ (b ++ c).
Proof. induction a as [|x a IH]; cbn; [reflexivity|now rewrite IH]. Qed.

Ltac prefix_ticks :=
  repeat match goal with
    | |- context [prefix (String ?a ?s1) (String ?b ?s2)] =>
        rewrite (prefix_String a s1 b s2)
    | |- context [prefix EmptyString ?s] => rewrite (prefix_empty s)
    | |- context [Ascii.eqb ?a ?a] => rewrite (Ascii.eqb_refl a)
    end.

Ltac prefix_ticks_in H :=
  repeat match type of H with
    | context [prefix (String ?a ?s1) (String ?b ?s2)] =>
        rewrite (prefix_String a s1 b s2) in H
    | context [prefix EmptyString ?s] => rewrite (prefix_empty s) in H
    | context [Ascii.eqb ?a ?a] => rewrite (Ascii.eqb_refl a) in H
    end.

Lemma unfence_other c s :
  Ascii.eqb tick c = false -> unfence (String c s) = String c (unfence s).
Proof.
  intros H. unfold unfence, replace, fence. cbn [replace_from].
  change "```" with (String tick "``"). now rewrite prefix_String, H.
Qed.

Lemma unfence_fence s :
  unfence (String tick (String tick (String tick s))) = unfence s.
Proof.
  unfold unfence, replace, fence. cbn [replace_from].
  change "```" with (String tick (String tick (String tick ""))).
  prefix_ticks. reflexivity.
Qed.

Lemma unfence_tick s :
  prefix "``" s = false -> unfence (String tick s) = String tick (unfence s).
Proof.
  intros H. unfold unfence, replace, fence. cbn [replace_from].
  change "```" with (String tick "``").
  now rewrite prefix_String, H, Ascii.eqb_refl.
Qed.

Lemma occurs_fence_cons c r :
  occurs fence (String c r)
  = (Ascii.eqb tick c && prefix "``" r) || occurs fence r.
Proof.
  unfold fence. cbn [occurs]. change "```" with (String tick "``").
  now rewrite prefix_String.
Qed.

(** After the fences are taken out, what is left has no fence, and starts
    with no more backticks than the text did. *)
Lemma unfence_shape n : forall s, String.length s <= n ->
  occurs fence (unfence s) = false
  /\ (prefix "``" s = false -> prefix "``" (unfence s) = false)
  /\ (prefix "`" s = false -> prefix "`" (unfence s) = false).
Proof.
  induction n as [|n IH]; intros s Hlen.
  - destruct s; [|cbn in Hlen; lia]. cbn. auto.
  - destruct s as [|c s]; [cbn; auto|].
    cbn in Hlen. destruct (IH s ltac:(lia)) as (I1 & I2 & I3).
    destruct (Ascii.eqb tick c) eqn:Ec.
    + apply Ascii.eqb_eq in Ec. subst c.
      destruct (prefix "``" s) eqn:E2.
      * destruct s as [|c2 s2]; [discriminate|].
        change "``" with (String tick "`") in E2. rewrite prefix_String in E2.
        apply andb_prop in E2 as [E2 E3]. apply Ascii.eqb_eq in E2. subst c2.
        destruct s2 as [|c3 s3]; [discriminate|].
        change "`" with (String tick "") in E3. rewrite prefix_String in E3.
        apply andb_prop in E3 as [E3 _]. apply Ascii.eqb_eq in E3. subst c3.
        rewrite unfence_fence. cbn in Hlen.
        destruct (IH s3 ltac:(lia)) as (J1 & J2 & J3).
        split; [exact J1|]. split; intros H; exfalso.
        -- change "``" with (String tick (String tick "")) in H.
           prefix_ticks_in H. discriminate.
        -- change "`" with (String tick "") in H.
           prefix_ticks_in H. discriminate.
      * rewrite unfence_tick by assumption. specialize (I2 eq_refl).
        rewrite occurs_fence_cons, I1, I2, andb_false_r.
        split; [reflexivity|]. split.
        2:{ intros H. change "`" with (String tick "") in H.
            prefix_ticks_in H. discriminate. }
        intros H. change "``" with (String tick "`") in H |- *.
        rewrite prefix_String, Ascii.eqb_refl in H |- *.
        cbn [andb] in *. auto.
    + rewrite unfence_other by assumption.
      rewrite occurs_fence_cons, I1, Ec. split; [reflexivity|].
      split; intros _.
      * change "``" with (String tick "`"). now rewrite prefix_String, Ec.
      * change "`" with (String tick ""). now rewrite prefix_String, Ec.
Qed.

Lemma unfence_no_fence s : occurs fence (replace fence "" s) = false.
Proof. exact (proj1 (unfence_shape (String.length s) s (le_n _))). Qed.

Lemma prefix_fence_json s : prefix fence_json s = true -> prefix fence s = true.
Proof.
  unfold fence_json, fence.
  change "```json" with (String tick (String tick (String tick "json"))).
  change "```" with (String tick (String tick (String tick ""))).
  destruct s as [|a [|b [|c s]]]; intros H;
    prefix_ticks_in H; cbn [prefix] in H;
    rewrite ?andb_false_r in H; try discriminate.
  prefix_ticks.
  destruct (Ascii.eqb tick a), (Ascii.eqb tick b), (Ascii.eqb tick c);
    cbn in *; auto.
Qed.

Lemma occurs_fence_json s :
  occurs fence s = false -> occurs fence_json s = false.
Proof.
  induction s as [|c s IH].
  - reflexivity.
  - cbn [occurs]. intros H. apply orb_false_elim in H as [H1 H2].
    rewrite (IH H2), orb_false_r.
    destruct (prefix fence_json (String c s)) eqn:E; [|reflexivity].
    apply prefix_fence_json in E. congruence.
Qed.

(** Lines of a text that begins with a line-feed-free part. *)
Lemma lines_single s : single_line s = true -> lines s = [s].
Proof.
  induction s as [|c s IH]; cbn; [reflexivity|].
  intros H. apply andb_prop in H as [Hc Hs].
  apply negb_true_iff in Hc. rewrite Hc, (IH Hs). reflexivity.
Qed.

Lemma lines_append_nl a b :
  single_line a = true -> lines (a ++ nl ++ b) = a :: lines b.
Proof.
  induction a as [|c a IH]; cbn.
  - reflexivity.
  - intros H. apply andb_prop in H as [Hc Ha].
    apply negb_true_iff in Hc. rewrite Hc.
    cbn in IH. rewrite (IH Ha). reflexivity.
Qed.

End StringFacts.

(** ** One pass of the script, part by part *)

Lemma narrative_app a b : narrative (a ++ b) = (narrative a ++ narrative b)%list.
Proof. apply filter_app. Qed.

Lemma narrative_shown h : narrative (shown h) = [].
Proof. induction h as [|[q a] h IH]; cbn; auto. Qed.

Lemma get_json_eq env p i s out :
  Gateway.get_gemini_json_response env p i (mkStore s out)
  = (Ret (Gateway.json_reply env p i), mkStore s (out ++ [GeminiJSON p i])%list).
Proof.
  unfold Gateway.get_gemini_json_response, Gateway.json_reply, bind, emit, ret. cbn.
  destruct (generate_content env p i); reflexivity.
Qed.

Lemma get_text_eq env p i s out :
  Gateway.get_gemini_text_response env p i (mkStore s out)
  = (Ret (Gateway.text_reply env p i), mkStore s (out ++ [GeminiText p i])%list).
Proof.
  unfold Gateway.get_gemini_text_response, Gateway.text_reply, bind, emit, ret. cbn.
  destruct (generate_content env p i); reflexivity.
Qed.

Section PassFacts.
  Context {rt : PyRuntime}.
  Variable env : Env.

Lemma start_triage_eq s out :
  start_triage env (mkStore s out)
  = match json_loads (triage_reply env s) with
    | DecodeError =>
        (Ret tt, mkStore s (out ++ [triage_call s; StError triage_failed_message])%list)
    | Loaded (JObject d) =>
        (Exc RerunException,
         mkStore (commit_triage (questions_of d) s) (out ++ [triage_call s])%list)
    | Loaded _ => (Exc AttributeError, mkStore s (out ++ [triage_call s])%list)
    end.
Proof.
  unfold start_triage, bind, read, try_except. cbn [session output fst snd].
  rewrite get_json_eq. unfold loads, lift, triage_reply, triage_call.
  destruct (json_loads _) as [data|]; cbn.
  2:{ unfold emit; cbn [session output]. now rewrite <- app_assoc. }
  destruct data; cbn; try reflexivity.
  unfold questions_of. destruct (Py.dict_find fields "questions"); reflexivity.
Qed.

Lemma show_history_eq h s out :
  show_history h (mkStore s out) = (Ret tt, mkStore s (out ++ shown h)%list).
Proof.
  revert out. induction h as [|[q a] h IH]; intros out; cbn.
  - now rewrite app_nil_r.
  - unfold bind, emit. cbn. rewrite IH. now rewrite <- !app_assoc.
Qed.

Lemma option_buttons_eq q i options s out :
  option_buttons env q i options (mkStore s out)
  = match first_pressed env i options with
    | Chosen o => (Exc RerunException, mkStore (record_answer q o s) out)
    | NoneChosen => (Ret tt, mkStore s out)
    | ButtonRefused => (Exc StreamlitAPIException, mkStore s out)
    end.
Proof.
  revert i. induction options as [|o rest IH]; intros i; cbn.
  - reflexivity.
  - destruct (option_button env i o); cbn; auto.
Qed.

Lemma first_pressed_chosen i options o :
  first_pressed env i options = Chosen o ->
  exists j, option_button env j o = Pressed.
Proof.
  revert i. induction options as [|x rest IH]; intros i; cbn; [discriminate|].
  destruct (option_button env i x) eqn:E; try discriminate.
  - intros [= ->]. eauto.
  - apply IH.
Qed.

Lemma final_analysis_branch_eq s out :
  final_analysis_branch env (mkStore s out)
  = (Exc RerunException,
     mkStore (store_analysis (analysis_reply env s) s)
             (out ++ [analysis_call s])%list).
Proof.
  unfold final_analysis_branch, bind, read, modify. cbn [session output].
  rewrite get_text_eq. reflexivity.
Qed.

Lemma ask_question_outcome s out n :
  conversation_started s = true ->
  Py.len (triage_questions s) = Ret n ->
  current_question_index s < n ->
  outcome env s out (ask_question env (mkStore s out)).
Proof.
  intros Hs Hn Hi.
  unfold ask_question, bind, read, lift, emit. cbn [session output].
  destruct (Py.getitem_int _ _) as [cq|e] eqn:E1.
  2:{ apply out_quiet; auto. destruct (triage_questions s); cbn in E1;
      repeat match type of E1 with context [match ?x with _ => _ end] => destruct x end; congruence. }
  destruct (Py.getitem_str cq "question_text") as [qt|e] eqn:E2.
  2:{ apply out_quiet; auto. destruct cq; cbn in E2;
      repeat match type of E2 with context [match ?x with _ => _ end] => destruct x end; congruence. }
  destruct (Py.getitem_str cq "options") as [qo|e] eqn:E3.
  2:{ apply out_quiet; auto. destruct cq; cbn in E3;
      repeat match type of E3 with context [match ?x with _ => _ end] => destruct x end; congruence. }
  assert (Hw : narrative (out ++ [StWrite qt]) = narrative out).
  { rewrite narrative_app. cbn. apply app_nil_r. }
  destruct (Py.len qo) as [m|e] eqn:E4.
  2:{ apply out_quiet; auto. destruct qo; cbn in E4; congruence. }
  destruct (Nat.eqb m 0) eqn:E5; cbn.
  { apply out_quiet; auto. discriminate. }
  destruct (Py.iter qo) as [opts|e] eqn:E6.
  2:{ apply out_quiet; auto. destruct qo; cbn in E6; congruence. }
  rewrite option_buttons_eq.
  destruct (first_pressed env 0 opts) eqn:E7.
  - destruct (first_pressed_chosen _ _ _ E7) as [j Hj].
    eapply out_answer; eauto.
  - apply out_quiet; auto. discriminate.
  - apply out_quiet; auto. discriminate.
Qed.

Lemma outcome_same_calls s out1 out2 r :
  narrative out1 = narrative out2 -> outcome env s out1 r -> outcome env s out2 r.
Proof. intros E H. destruct H; rewrite E in *; econstructor; eauto. Qed.

Lemma conversation_outcome s out :
  conversation_started s = true ->
  outcome env s out (conversation env (mkStore s out)).
Proof.
  intros Hs. unfold conversation, bind, read, lift. cbn [session output].
  rewrite show_history_eq.
  assert (Hh : narrative (out ++ shown (conversation_history s)) = narrative out).
  { rewrite narrative_app, narrative_shown. apply app_nil_r. }
  destruct (Py.len (triage_questions s)) as [n|e] eqn:En.
  2:{ apply out_quiet; auto. destruct (triage_questions s); cbn in En; congruence. }
  destruct (Nat.ltb (current_question_index s) n) eqn:El.
  - apply Nat.ltb_lt in El.
    eapply outcome_same_calls; [exact Hh|].
    apply (ask_question_outcome s _ n Hs En El).
  - apply Nat.ltb_ge in El. rewrite final_analysis_branch_eq.
    eapply out_analysis; eauto.
    now rewrite narrative_app, Hh.
Qed.

Lemma column2_eq s out :
  column2 (mkStore s out) = (Ret tt, mkStore s (out ++ [column2_effect s])%list).
Proof.
  unfold column2, column2_effect, bind, read, emit. cbn [session output].
  destruct (final_analysis s) as [[|c t]|]; reflexivity.
Qed.

Lemma store_upload_eq img s out :
  store_upload img (mkStore s out)
  = (Ret tt, mkStore (match image s with None => store_image img s | Some _ => s end) out).
Proof.
  unfold store_upload, bind, read, when, modify. cbn [session output].
  destruct (image s); reflexivity.
Qed.

Lemma column1_outcome s :
  outcome env (after_upload env s) [] (column1 env (mkStore s [])).
Proof.
  unfold column1, after_upload.
  destruct (uploaded_file env) as [| |img].
  - apply out_quiet; [discriminate|reflexivity].
  - destruct (image s); apply out_quiet; try discriminate; reflexivity.
  - unfold bind at 1. rewrite store_upload_eq.
    set (s0 := match image s with None => store_image img s | Some _ => s end).
    replace (match image s with None => store_image img s | Some _ => s end) with s0
      by reflexivity.
    unfold bind, emit, read. cbn [session output app].
    destruct (conversation_started s0) eqn:Hst; cbn [negb andb when].
    + unfold ret at 1. cbn [session]. rewrite Hst. cbn [when].
      eapply (outcome_same_calls s0 [StImage img]); [reflexivity|].
      apply conversation_outcome; assumption.
    + destruct (final_analysis s0) eqn:Hfin; cbn [is_none when].
      * unfold ret. cbn [session]. rewrite Hst. cbn [when].
        apply out_quiet; [discriminate|reflexivity].
      * destruct (start_button env) eqn:Hb; cbn [when].
        -- rewrite start_triage_eq.
           destruct (json_loads (triage_reply env s0)) as [data|] eqn:Hl.
           ++ destruct data;
                try (apply out_quiet; [discriminate|reflexivity]).
              eapply out_start; eauto.
           ++ cbn [session]. rewrite Hst. cbn [when].
              apply out_quiet; [discriminate|reflexivity].
        -- unfold ret. cbn [session]. rewrite Hst. cbn [when].
           apply out_quiet; [discriminate|reflexivity].
Qed.

Theorem script_outcome s :
  outcome env (after_upload env s) [] (run_script env s).
Proof.
  unfold run_script, script, bind.
  pose proof (column1_outcome s) as H.
  destruct H.
  - destruct r as [[]|e].
    + rewrite column2_eq. apply out_quiet; [discriminate|].
      rewrite narrative_app, H0. unfold column2_effect.
      destruct (final_analysis _) as [[|c t]|]; reflexivity.
    + apply out_quiet; auto.
  - eapply out_start; eauto.
  - eapply out_answer; eauto.
  - eapply out_analysis; eauto.
Qed.
End PassFacts.

(** ** Steps, invariants and counts *)

Lemma coherent_initial : coherent initial_session.
Proof. repeat split; cbn; auto. Qed.

Lemma coherent_step s s' : step s s' -> coherent s -> coherent s'.
Proof.
  intros Hstep (Hlen & Hidx & Hfin). unfold coherent, index_in_range in *.
  destruct Hstep as [s img Himg|s q Hst Hf|s n q o Hst Hn Hi|s n text Hst Hn Hi];
    cbn.
  - auto.
  - repeat split; auto. destruct (Py.len q); auto with arith.
  - rewrite Hn in *. rewrite length_app. cbn. repeat split; auto; lia.
  - repeat split; auto. discriminate.
Qed.

Lemma coherent_steps s s' : steps s s' -> coherent s -> coherent s'.
Proof. induction 1; eauto using coherent_step. Qed.

Lemma after_upload_steps env s : steps s (after_upload env s).
Proof.
  unfold after_upload.
  destruct (uploaded_file env); try apply steps_refl.
  destruct (image s) eqn:E; [apply steps_refl|].
  eapply steps_step; [apply steps_refl|]. now apply step_upload.
Qed.

Section SessionFacts.
  Context {rt : PyRuntime}.

Lemma outcome_steps env s0 out r :
  outcome env s0 out r -> steps s0 (session (snd r)).
Proof.
  intros H. destruct H; cbn.
  - apply steps_refl.
  - eapply steps_step; [apply steps_refl|]. now apply step_start.
  - eapply steps_step; [apply steps_refl|]. eapply step_answer; eauto.
  - eapply steps_step; [apply steps_refl|]. eapply step_analysis; eauto.
Qed.

Lemma steps_trans s1 s2 s3 : steps s1 s2 -> steps s2 s3 -> steps s1 s3.
Proof. intros H12 H23. induction H23; eauto using steps_step. Qed.

Lemma pass_steps env s : steps s (session_after env s).
Proof.
  unfold session_after.
  eapply steps_trans; [apply after_upload_steps|].
  eapply outcome_steps. apply script_outcome.
Qed.

Lemma reachable_coherent s : reachable s -> coherent s.
Proof.
  induction 1.
  - apply coherent_initial.
  - eapply coherent_steps; eauto using pass_steps.
Qed.

Lemma after_upload_fields env s :
  conversation_started (after_upload env s) = conversation_started s
  /\ triage_questions (after_upload env s) = triage_questions s
  /\ current_question_index (after_upload env s) = current_question_index s
  /\ conversation_history (after_upload env s) = conversation_history s
  /\ final_analysis (after_upload env s) = final_analysis s.
Proof.
  unfold after_upload. destruct (uploaded_file env); auto.
  destruct (image s); cbn; auto.
Qed.

Lemma pass_count env s :
  coherent s ->
  narrative_calls (output_of env s) + analysis_count s
  = analysis_count (session_after env s).
Proof.
  intros Hc. unfold output_of, session_after, narrative_calls, analysis_count.
  assert (Hc0 : coherent (after_upload env s))
    by (eapply coherent_steps; eauto using after_upload_steps).
  destruct (after_upload_fields env s) as (_ & _ & _ & _ & Hf). rewrite <- Hf.
  destruct (script_outcome env s) as [r out' Hr Hn|d out' Hb Hst Hfin Hl Hn
                                     |n q o i out' Hst Hl Hi Hp Hn|n out' Hst Hl Hi Hn];
    cbn [snd session output]; rewrite Hn; cbn; auto.
  destruct Hc0 as (_ & _ & Hnone). rewrite (Hnone Hst). reflexivity.
Qed.

Lemma run_passes_count envs : forall s,
  coherent s ->
  narrative_calls (snd (run_passes envs s)) + analysis_count s
  = analysis_count (fst (run_passes envs s)).
Proof.
  induction envs as [|env envs IH]; intros s Hc; cbn.
  - reflexivity.
  - specialize (IH (session_after env s)
                  (coherent_steps _ _ (pass_steps env s) Hc)).
    destruct (run_passes envs (session_after env s)) as [s' out]. cbn in *.
    unfold narrative_calls, narrative in *. rewrite filter_app, length_app.
    pose proof (pass_count env s Hc) as Hp. unfold narrative_calls, narrative in Hp. lia.
Qed.

Lemma run_passes_reachable envs : forall s,
  reachable s -> reachable (fst (run_passes envs s)).
Proof.
  induction envs as [|env envs IH]; intros s Hr; cbn; [assumption|].
  specialize (IH _ (reach_pass env s Hr)).
  destruct (run_passes envs (session_after env s)); assumption.
Qed.

(** A pass in which the start button is pressed, and a pass over a session
    whose questions are all answered. *)
Lemma run_script_start env s img :
  uploaded_file env = GoodFile img ->
  start_button env = true ->
  conversation_started s = false ->
  final_analysis s = None ->
  let s0 := after_upload env s in
  run_script env s
  = match json_loads (triage_reply env s0) with
    | DecodeError =>
        (Ret tt,
         mkStore s0 [StImage img; triage_call s0; StError triage_failed_message;
                     column2_effect s0])
    | Loaded (JObject d) =>
        (Exc RerunException,
         mkStore (commit_triage (questions_of d) s0) [StImage img; triage_call s0])
    | Loaded _ => (Exc AttributeError, mkStore s0 [StImage img; triage_call s0])
    end.
Proof.
  intros Hu Hb Hst Hfin s0.
  destruct (after_upload_fields env s) as (Es & _ & _ & _ & Ef).
  fold s0 in Es, Ef. rewrite <- Es in Hst. rewrite <- Ef in Hfin.
  assert (Hs0 : s0 = match image s with None => store_image img s | Some _ => s end).
  { unfold s0, after_upload. rewrite Hu. reflexivity. }
  unfold run_script, script, column1. rewrite Hu.
  unfold bind at 1 2. rewrite store_upload_eq, <- Hs0.
  unfold bind, emit, read. cbn [session output app].
  rewrite Hst, Hfin, Hb. cbn [negb andb is_none when].
  rewrite start_triage_eq.
  destruct (json_loads (triage_reply env s0)) as [data|].
  - destruct data; reflexivity.
  - cbn [session]. rewrite Hst. cbn [when]. unfold ret.
    rewrite column2_eq. reflexivity.
Qed.

Lemma run_script_pending env s img n :
  uploaded_file env = GoodFile img ->
  conversation_started s = true ->
  Py.len (triage_questions s) = Ret n ->
  n <= current_question_index s ->
  let s0 := after_upload env s in
  run_script env s
  = (Exc RerunException,
     mkStore (store_analysis (analysis_reply env s0) s0)
       ([StImage img] ++ shown (conversation_history s) ++ [analysis_call s0])).
Proof.
  intros Hu Hst Hn Hi s0.
  destruct (after_upload_fields env s) as (Es & Eq & Ei & Eh & Ef).
  fold s0 in Es, Eq, Ei, Eh, Ef.
  rewrite <- Es in Hst. rewrite <- Eq in Hn. rewrite <- Ei in Hi. rewrite <- Eh.
  assert (Hs0 : s0 = match image s with None => store_image img s | Some _ => s end).
  { unfold s0, after_upload. rewrite Hu. reflexivity. }
  unfold run_script, script, column1. rewrite Hu.
  unfold bind at 1 2. rewrite store_upload_eq, <- Hs0.
  unfold bind, emit, read. cbn [session output app].
  rewrite Hst. cbn [negb andb when]. unfold ret. cbn [session]. rewrite Hst. cbn [when].
  unfold conversation, bind, read, lift. cbn [session output].
  rewrite show_history_eq, Hn.
  apply Nat.ltb_ge in Hi. rewrite Hi.
  rewrite final_analysis_branch_eq. rewrite <- app_assoc. reflexivity.
Qed.
End SessionFacts.

(** ** The start of the triage *)

Section StartTriage.
Context {rt : PyRuntime}.

(** C1.  When the reply of the structured gateway fails to parse, the pass in
    which the start button was pressed ends normally, the error message is
    shown, and [triage_questions], [conversation_started],
    [current_question_index] and [conversation_history] are as before; the
    whole session is the one the upload handler left, so its phase has not
    changed and nothing was committed in part. *)
Theorem start_triage_parse_failure (env : Env) (s : Session) (img : Image) :
  uploaded_file env = GoodFile img ->
  start_button env = true ->
  conversation_started s = false ->
  final_analysis s = None ->
  json_loads (triage_reply env (after_upload env s)) = DecodeError ->
  let s' := session_after env s in
  status_of env s = Ret tt
  /\ triage_questions s' = triage_questions s
  /\ conversation_started s' = conversation_started s
  /\ current_question_index s' = current_question_index s
  /\ conversation_history s' = conversation_history s
  /\ In (StError triage_failed_message) (output_of env s)
  /\ s' = after_upload env s
  /\ phase s' = phase (after_upload env s).
Proof.
  intros Hu Hb Hst Hfin Hl s'.
  pose proof (run_script_start env s img Hu Hb Hst Hfin) as Hrun.
  cbv zeta in Hrun. rewrite Hl in Hrun.
  destruct (after_upload_fields env s) as (Es & Eq & Ei & Eh & Ef).
  unfold s', status_of, session_after, output_of. rewrite Hrun.
  cbn [fst snd session output].
  repeat split; auto. cbn. auto.
Qed.

(** C5, as amended.  When the reply parses as a JSON object, the pass
    commits the triage: [triage_questions] is the value under "questions"
    (the empty list when the key is absent), the history is empty, the index
    is 0, the conversation is started and a rerun is asked for.  When that
    value has a length, the session is in [AskingQuestion 0], or in
    [AnalysisPending] when the length is 0: so for a list of questions, and
    for the empty list. *)
Theorem start_triage_commits (env : Env) (s : Session) (img : Image)
    (d : list (string * json)) :
  uploaded_file env = GoodFile img ->
  start_button env = true ->
  conversation_started s = false ->
  final_analysis s = None ->
  json_loads (triage_reply env (after_upload env s)) = Loaded (JObject d) ->
  let s' := session_after env s in
  status_of env s = Exc RerunException
  /\ triage_questions s'
     = match Py.dict_find d "questions" with
       | Some v => v
       | None => JList []
       end
  /\ conversation_history s' = []
  /\ current_question_index s' = 0
  /\ conversation_started s' = true
  /\ (forall n, Py.len (triage_questions s') = Ret n ->
      phase s' = Some (if Nat.eqb n 0 then AnalysisPending
                       else AskingQuestion 0))
  /\ (forall q qs, triage_questions s' = JList (q :: qs) ->
      phase s' = Some (AskingQuestion 0))
  /\ (triage_questions s' = JList [] -> phase s' = Some AnalysisPending).
Proof.
  intros Hu Hb Hst Hfin Hl s'.
  pose proof (run_script_start env s img Hu Hb Hst Hfin) as Hrun.
  cbv zeta in Hrun. rewrite Hl in Hrun.
  unfold s', status_of, session_after, output_of. rewrite Hrun.
  cbn [fst snd session output].
  repeat split; auto.
  - intros n Hn. unfold phase. cbn in *. rewrite Hn. now destruct n.
  - intros q qs Hq. unfold phase. cbn in *. now rewrite Hq.
  - intros Hq. unfold phase. cbn in *. now rewrite Hq.
Qed.

(** C10.  When the reply parses to a value that is not an object, [data.get]
    raises [AttributeError]; the handler catches [JSONDecodeError] and
    [KeyError] only, so the pass ends with that exception and the error
    message is not shown.  The exception comes before the assignments: the
    session is the one the upload handler left. *)
Theorem start_triage_non_object (env : Env) (s : Session) (img : Image)
    (data : json) :
  uploaded_file env = GoodFile img ->
  start_button env = true ->
  conversation_started s = false ->
  final_analysis s = None ->
  json_loads (triage_reply env (after_upload env s)) = Loaded data ->
  (forall d, data <> JObject d) ->
  status_of env s = Exc AttributeError
  /\ Py.get data "questions" (JList []) = Exc AttributeError
  /\ decode_or_key_error AttributeError = false
  /\ filter is_error_shown (output_of env s) = []
  /\ session_after env s = after_upload env s.
Proof.
  intros Hu Hb Hst Hfin Hl Hd.
  pose proof (run_script_start env s img Hu Hb Hst Hfin) as Hrun.
  cbv zeta in Hrun. rewrite Hl in Hrun.
  unfold status_of, output_of, session_after.
  destruct data; try (now exfalso; eapply Hd); rewrite Hrun; cbn; auto.
Qed.

End StartTriage.

(** C1 at the scenario: the model answers with prose. *)
Lemma start_triage_parse_failure_witness :
  let env := Sample.env_start_garbage in
  let s := Sample.s_uploaded in
  let s' := @session_after Sample.runtime env s in
  @status_of Sample.runtime env s = Ret tt
  /\ triage_questions s' = triage_questions s
  /\ conversation_started s' = conversation_started s
  /\ current_question_index s' = current_question_index s
  /\ conversation_history s' = conversation_history s
  /\ In (StError triage_failed_message) (@output_of Sample.runtime env s)
  /\ s' = after_upload env s
  /\ phase s' = phase (after_upload env s).
Proof.
  apply (@start_triage_parse_failure Sample.runtime Sample.env_start_garbage
           Sample.s_uploaded Sample.img1); reflexivity.
Defined.

(** C5 as stated fails: the reply [{"questions": 5}] parses as an object;
    the triage is committed with the number 5 for questions, which has no
    length, so the session is in no phase: the pass that follows raises
    [TypeError], writes no question and calls no gateway, and so does every
    later one, the session being left as it is. *)
Lemma start_triage_number_for_questions :
  let env := Sample.env_start_number in
  let s' := @session_after Sample.runtime env Sample.s_uploaded in
  Sample.sample_loads (@triage_reply env Sample.s_uploaded)
  = Loaded (JObject [("questions", JInt 5)])
  /\ @status_of Sample.runtime env Sample.s_uploaded = Exc RerunException
  /\ triage_questions s' = JInt 5
  /\ conversation_started s' = true
  /\ phase s' = None
  /\ @run_script Sample.runtime (rerun_env env) s'
     = (Exc TypeError, mkStore s' [StImage Sample.img1]).
Proof. repeat split; reflexivity. Qed.

(** C5 as amended, at the scenario: the model answers with one question. *)
Lemma start_triage_commits_witness :
  let env := Sample.env_start_duration in
  let s' := @session_after Sample.runtime env Sample.s_uploaded in
  @status_of Sample.runtime env Sample.s_uploaded = Exc RerunException
  /\ triage_questions s'
     = match Py.dict_find [("questions", Sample.questions_duration)]
               "questions" with
       | Some v => v
       | None => JList []
       end
  /\ conversation_history s' = []
  /\ current_question_index s' = 0
  /\ conversation_started s' = true
  /\ (forall n, Py.len (triage_questions s') = Ret n ->
      phase s' = Some (if Nat.eqb n 0 then AnalysisPending
                       else AskingQuestion 0))
  /\ (forall q qs, triage_questions s' = JList (q :: qs) ->
      phase s' = Some (AskingQuestion 0))
  /\ (triage_questions s' = JList [] -> phase s' = Some AnalysisPending).
Proof.
  apply (@start_triage_commits Sample.runtime Sample.env_start_duration
           Sample.s_uploaded Sample.img1
           [("questions", Sample.questions_duration)]); reflexivity.
Defined.

(** C10 at the scenario: the model answers with a JSON list. *)
Lemma start_triage_non_object_witness :
  @status_of Sample.runtime Sample.env_start_list Sample.s_uploaded
  = Exc AttributeError
  /\ Py.get (JList []) "questions" (JList []) = Exc AttributeError
  /\ decode_or_key_error AttributeError = false
  /\ filter is_error_shown
       (@output_of Sample.runtime Sample.env_start_list Sample.s_uploaded) = []
  /\ @session_after Sample.runtime Sample.env_start_list Sample.s_uploaded
     = after_upload Sample.env_start_list Sample.s_uploaded.
Proof.
  apply (@start_triage_non_object Sample.runtime Sample.env_start_list
           Sample.s_uploaded Sample.img1 (JList []));
    try reflexivity.
  intros d. discriminate.
Defined.

(** ** The conversation *)

Section Conversation.
Context {rt : PyRuntime}.

(** Every reachable session is reached by a list of passes from the initial
    one, and conversely. *)
Lemma run_passes_app envs1 envs2 s :
  fst (run_passes (envs1 ++ envs2) s)
  = fst (run_passes envs2 (fst (run_passes envs1 s))).
Proof.
  revert s. induction envs1 as [|env envs1 IH]; intros s; cbn; [reflexivity|].
  specialize (IH (session_after env s)).
  destruct (run_passes (envs1 ++ envs2) (session_after env s)).
  destruct (run_passes envs1 (session_after env s)). exact IH.
Qed.

Lemma reachable_run_passes s :
  reachable s <-> exists envs, s = fst (run_passes envs initial_session).
Proof.
  split.
  - induction 1 as [|env s Hs [envs IH]].
    + now exists [].
    + exists (envs ++ [env])%list. rewrite run_passes_app, <- IH. reflexivity.
  - intros [envs ->]. apply run_passes_reachable. constructor.
Qed.

(** C2.  In every reachable session the history is as long as the index
    says; in particular this holds after any further pass, so after every
    answer selection. *)
Theorem history_length_is_index (s : Session) :
  reachable s ->
  List.length (conversation_history s) = current_question_index s
  /\ (forall env,
        List.length (conversation_history (session_after env s))
        = current_question_index (session_after env s))
  /\ (forall q_text option,
        List.length (conversation_history (record_answer q_text option s))
        = current_question_index (record_answer q_text option s)).
Proof.
  intros Hr. split; [|split].
  - apply (reachable_coherent s Hr).
  - intros env. apply (reachable_coherent _ (reach_pass env s Hr)).
  - intros q o. cbn. rewrite length_app. cbn.
    now rewrite (proj1 (reachable_coherent s Hr)).
Qed.

(** A pass that asks for a rerun had a file in the uploader, and leaves an
    image in the session. *)
Lemma rerun_has_file env s :
  status_of env s = Exc RerunException ->
  exists img, uploaded_file env = GoodFile img.
Proof.
  unfold status_of, run_script, script, column1.
  destruct (uploaded_file env) as [| |img]; [| |eauto].
  - unfold bind, ret. rewrite column2_eq. discriminate.
  - unfold bind, raise. cbn. discriminate.
Qed.

Lemma image_after_pass env s :
  image (session_after env s)
  = match image s, uploaded_file env with
    | Some stored, _ => Some stored
    | None, GoodFile uploaded => Some uploaded
    | None, _ => None
    end.
Proof.
  assert (Hup : image (after_upload env s)
                = match image s, uploaded_file env with
                  | Some stored, _ => Some stored
                  | None, GoodFile uploaded => Some uploaded
                  | None, _ => None
                  end).
  { unfold after_upload.
    destruct (uploaded_file env), (image s) eqn:E; cbn; now rewrite ?E. }
  rewrite <- Hup. unfold session_after.
  destruct (script_outcome env s); reflexivity.
Qed.

(** A pass over a started session whose questions are all answered, with a
    file in the uploader. *)
Lemma pending_pass (env : Env) (s : Session) (img : Image) :
  uploaded_file env = GoodFile img ->
  conversation_started s = true ->
  Py.len (triage_questions s) = Ret (current_question_index s) ->
  let s0 := after_upload env s in
  let s' := session_after env s in
  let final_prompt :=
    Prompt.create_final_analysis_prompt (transcript (conversation_history s)) in
  status_of env s = Exc RerunException
  /\ narrative (output_of env s) = [GeminiText final_prompt (image s0)]
  /\ final_analysis s'
     = Some match generate_content env final_prompt (image s0) with
            | GenText text => text
            | GenRaise e => "Error: API communication failed. " ++ e
            end
  /\ conversation_started s' = false
  /\ conversation_history s' = conversation_history s.
Proof.
  intros Hu Hst Hn s0 s' final_prompt.
  pose proof (run_script_pending env s img _ Hu Hst Hn (le_n _)) as Hrun.
  cbv zeta in Hrun. fold s0 in Hrun.
  destruct (after_upload_fields env s) as (Es & Eq & Ei & Eh & Ef).
  fold s0 in Eh.
  assert (Hp : analysis_prompt s0 = final_prompt).
  { unfold analysis_prompt, final_prompt. now rewrite Eh. }
  assert (Hcalls : narrative (output_of env s) = [GeminiText final_prompt (image s0)]).
  { unfold output_of. rewrite Hrun. cbn [snd output].
    rewrite !narrative_app, narrative_shown. cbn.
    unfold analysis_call. now rewrite Hp. }
  unfold s', status_of, session_after. rewrite Hcalls, Hrun.
  cbn [fst snd session output].
  repeat split; auto.
  cbn. unfold analysis_reply, Gateway.text_reply, Gateway.text_error.
  rewrite Hp. reflexivity.
Qed.

(** C3.  When a pass has ended by [st.rerun()] and has left a started
    session whose index equals the number of questions, the pass that
    follows of itself, with no button pressed, makes one call of the
    narrative gateway, with the prompt built from the whole history and the
    stored image; it stores what the gateway returned as [final_analysis]
    (the model's text, or the error string when the call failed) and leaves
    the session in [Complete]. *)
Theorem final_analysis_stored (env : Env) (s : Session) :
  status_of env s = Exc RerunException ->
  conversation_started (session_after env s) = true ->
  Py.len (triage_questions (session_after env s))
  = Ret (current_question_index (session_after env s)) ->
  let s1 := session_after env s in
  let s2 := session_after (rerun_env env) s1 in
  let final_prompt :=
    Prompt.create_final_analysis_prompt (transcript (conversation_history s1)) in
  no_action (rerun_env env)
  /\ narrative (output_of (rerun_env env) s1)
     = [GeminiText final_prompt (image s1)]
  /\ narrative_calls (output_of (rerun_env env) s1) = 1
  /\ final_analysis s2
     = Some match generate_content env final_prompt (image s1) with
            | GenText text => text
            | GenRaise e => "Error: API communication failed. " ++ e
            end
  /\ conversation_started s2 = false
  /\ conversation_history s2 = conversation_history s1
  /\ phase s2 = Some Complete.
Proof.
  intros Hrr Hst Hn s1 s2 final_prompt.
  destruct (rerun_has_file env s Hrr) as [img Hu].
  assert (Hu' : uploaded_file (rerun_env env) = GoodFile img) by exact Hu.
  assert (Hs1 : after_upload (rerun_env env) s1 = s1).
  { unfold after_upload. rewrite Hu'.
    unfold s1. rewrite (image_after_pass env s), Hu.
    destruct (image s); reflexivity. }
  destruct (pending_pass (rerun_env env) s1 img Hu' Hst Hn)
    as (_ & Hcalls & Hfin & Hstarted & Hhist).
  rewrite Hs1 in Hcalls, Hfin. fold s2 final_prompt in Hcalls, Hfin, Hstarted, Hhist.
  split; [split; [reflexivity|discriminate]|].
  split; [exact Hcalls|]. split; [unfold narrative_calls; now rewrite Hcalls|].
  split; [exact Hfin|]. split; [exact Hstarted|]. split; [exact Hhist|].
  unfold phase. now rewrite Hstarted, Hfin.
Qed.

(** C6.  After any list of passes from the initial session the index is in
    range, and the narrative gateway has been called as many times as there
    is a stored analysis: never twice, and once exactly when the analysis is
    there.  A pass over a started session whose index equals the number of
    questions makes that one call and ends the triage run. *)
Theorem index_in_range_single_analysis (envs : list Env) :
  let s := fst (run_passes envs initial_session) in
  let out := snd (run_passes envs initial_session) in
  reachable s
  /\ index_in_range s
  /\ (forall n, Py.len (triage_questions s) = Ret n ->
      0 <= current_question_index s <= n)
  /\ narrative_calls out = analysis_count s
  /\ narrative_calls out <= 1
  /\ (forall env img,
        uploaded_file env = GoodFile img ->
        conversation_started s = true ->
        Py.len (triage_questions s) = Ret (current_question_index s) ->
        narrative_calls (output_of env s) = 1
        /\ conversation_started (session_after env s) = false
        /\ analysis_count (session_after env s) = 1).
Proof.
  intros s out.
  assert (Hr : reachable s) by (apply run_passes_reachable; constructor).
  pose proof (run_passes_count envs initial_session coherent_initial) as Hc.
  fold s out in Hc. cbn [analysis_count initial_session final_analysis] in Hc.
  rewrite Nat.add_0_r in Hc.
  pose proof (proj1 (proj2 (reachable_coherent s Hr))) as Hidx.
  split; [exact Hr|]. split; [exact Hidx|].
  split.
  { intros n Hn. unfold index_in_range in Hidx. rewrite Hn in Hidx. lia. }
  split; [exact Hc|]. split.
  - rewrite Hc. unfold analysis_count. destruct (final_analysis s); lia.
  - intros env img Hu Hst Hn.
    pose proof (run_script_pending env s img _ Hu Hst Hn (le_n _)) as Hrun.
    cbv zeta in Hrun.
    unfold output_of, session_after, narrative_calls. rewrite Hrun.
    cbn [snd output session].
    rewrite !narrative_app, narrative_shown. cbn. auto.
Qed.

(** C8, as amended.  A pass in which no button is pressed leaves the history
    and the index as they were, and leaves [final_analysis] as it was unless
    the session is in [AnalysisPending]. *)
Theorem rerender_preserves (env : Env) (s : Session) :
  no_action env ->
  conversation_history (session_after env s) = conversation_history s
  /\ current_question_index (session_after env s) = current_question_index s
  /\ (phase s <> Some AnalysisPending ->
      final_analysis (session_after env s) = final_analysis s).
Proof.
  intros [Hb Ho].
  destruct (after_upload_fields env s) as (Es & Eq & Ei & Eh & Ef).
  unfold session_after.
  destruct (script_outcome env s)
    as [r out' Hr Hn|d out' Hb' Hst Hfin Hl Hn
       |n q o i out' Hst Hl Hi Hp Hn|n out' Hst Hl Hi Hn];
    cbn [snd session].
  - auto.
  - congruence.
  - exfalso. exact (Ho i o Hp).
  - cbn. repeat split; auto. intros Hph. exfalso. apply Hph.
    unfold phase. rewrite <- Es, Hst, <- Eq, Hl, <- Ei.
    apply Nat.ltb_ge in Hi. now rewrite Hi.
Qed.

(** C9.  The image field after a pass is the stored image when there was
    one, and else the uploaded image when the uploader holds one that opens:
    the first upload wins, over any number of later passes.  The upload
    handler itself changes no other field of the session, puts nothing out
    and does not raise. *)
Theorem first_upload_wins (env : Env) (s : Session) (img : Image)
    (out : list effect) :
  image (session_after env s)
  = match image s, uploaded_file env with
    | Some stored, _ => Some stored
    | None, GoodFile uploaded => Some uploaded
    | None, _ => None
    end
  /\ (forall envs stored,
        image s = Some stored ->
        image (fst (run_passes envs s)) = Some stored)
  /\ exists s',
       store_upload img (mkStore s out) = (Ret tt, mkStore s' out)
       /\ image s' = match image s with
                     | Some stored => Some stored
                     | None => Some img
                     end
       /\ conversation_started s' = conversation_started s
       /\ triage_questions s' = triage_questions s
       /\ current_question_index s' = current_question_index s
       /\ conversation_history s' = conversation_history s
       /\ final_analysis s' = final_analysis s.
Proof.
  split; [apply image_after_pass|]. split.
  - intros envs. revert s. induction envs as [|e envs IH]; intros s stored Hs.
    + exact Hs.
    + cbn. specialize (IH (session_after e s) stored).
      destruct (run_passes envs (session_after e s)). apply IH.
      rewrite image_after_pass, Hs. reflexivity.
  - rewrite store_upload_eq. eexists. split; [reflexivity|].
    destruct (image s) eqn:E; cbn; auto 10.
Qed.

End Conversation.

(** C2 at the scenario: upload, start, answer. *)
Lemma history_length_is_index_witness :
  let s :=
    fst (@run_passes Sample.runtime
           [Sample.env_idle; Sample.env_start_duration; Sample.env_answer]
           initial_session) in
  List.length (conversation_history s) = current_question_index s
  /\ (forall env,
        List.length (conversation_history (@session_after Sample.runtime env s))
        = current_question_index (@session_after Sample.runtime env s))
  /\ (forall q_text option,
        List.length (conversation_history (record_answer q_text option s))
        = current_question_index (record_answer q_text option s)).
Proof.
  apply (@history_length_is_index Sample.runtime).
  apply (@run_passes_reachable Sample.runtime
           [Sample.env_idle; Sample.env_start_duration; Sample.env_answer]).
  constructor.
Defined.

(** C3 at the scenario: the one question is answered while the model is
    down. *)
Lemma final_analysis_stored_witness :
  let env := Sample.env_answer_model_down in
  let s1 := @session_after Sample.runtime env Sample.s_asking in
  let s2 := @session_after Sample.runtime (rerun_env env) s1 in
  let final_prompt :=
    Prompt.create_final_analysis_prompt
      (@transcript Sample.runtime (conversation_history s1)) in
  no_action (rerun_env env)
  /\ narrative (@output_of Sample.runtime (rerun_env env) s1)
     = [GeminiText final_prompt (image s1)]
  /\ narrative_calls (@output_of Sample.runtime (rerun_env env) s1) = 1
  /\ final_analysis s2
     = Some match generate_content env final_prompt (image s1) with
            | GenText text => text
            | GenRaise e => "Error: API communication failed. " ++ e
            end
  /\ conversation_started s2 = false
  /\ conversation_history s2 = conversation_history s1
  /\ phase s2 = Some Complete.
Proof.
  apply (@final_analysis_stored Sample.runtime Sample.env_answer_model_down
           Sample.s_asking); reflexivity.
Defined.

(** C6 at the scenario: after upload, start and answer, the next pass makes
    the one call. *)
Lemma index_in_range_single_analysis_witness :
  let envs := [Sample.env_idle; Sample.env_start_duration; Sample.env_answer] in
  let s := fst (@run_passes Sample.runtime envs initial_session) in
  let out := snd (@run_passes Sample.runtime envs initial_session) in
  @reachable Sample.runtime s
  /\ index_in_range s
  /\ (forall n, Py.len (triage_questions s) = Ret n ->
      0 <= current_question_index s <= n)
  /\ narrative_calls out = analysis_count s
  /\ narrative_calls out <= 1
  /\ (forall env img,
        uploaded_file env = GoodFile img ->
        conversation_started s = true ->
        Py.len (triage_questions s) = Ret (current_question_index s) ->
        narrative_calls (@output_of Sample.runtime env s) = 1
        /\ conversation_started (@session_after Sample.runtime env s) = false
        /\ analysis_count (@session_after Sample.runtime env s) = 1).
Proof.
  exact (@index_in_range_single_analysis Sample.runtime
           [Sample.env_idle; Sample.env_start_duration; Sample.env_answer]).
Defined.

Lemma no_action_env_idle : no_action Sample.env_idle.
Proof.
  split; [reflexivity|]. intros i o. cbn. discriminate.
Qed.

(** C8 as stated fails: the session reached by an upload and a start whose
    reply holds no question is in [AnalysisPending] with no analysis; the
    next pass, with no button pressed, stores one. *)
Lemma rerender_stores_analysis :
  let s :=
    fst (@run_passes Sample.runtime
           [Sample.env_idle; Sample.env_start_no_questions] initial_session) in
  @reachable Sample.runtime s
  /\ no_action Sample.env_idle
  /\ phase s = Some AnalysisPending
  /\ final_analysis s = None
  /\ final_analysis (@session_after Sample.runtime Sample.env_idle s)
     = Some "Analysis text".
Proof.
  split.
  - apply (@run_passes_reachable Sample.runtime
             [Sample.env_idle; Sample.env_start_no_questions]).
    constructor.
  - split; [exact no_action_env_idle|]. repeat split.
Qed.

(** C8 as amended, at the scenario: a pass without a button while the
    question is being asked. *)
Lemma rerender_preserves_witness :
  no_action Sample.env_idle
  /\ conversation_history (@session_after Sample.runtime Sample.env_idle
                             Sample.s_asking)
     = conversation_history Sample.s_asking
  /\ current_question_index (@session_after Sample.runtime Sample.env_idle
                               Sample.s_asking)
     = current_question_index Sample.s_asking
  /\ (phase Sample.s_asking <> Some AnalysisPending ->
      final_analysis (@session_after Sample.runtime Sample.env_idle
                        Sample.s_asking)
      = final_analysis Sample.s_asking).
Proof.
  split; [exact no_action_env_idle|].
  apply (@rerender_preserves Sample.runtime Sample.env_idle Sample.s_asking).
  exact no_action_env_idle.
Defined.

(** ** The gateway and the analysis prompt *)

Section GatewayAndPrompt.
Import PyStr.

(** C4.  Both gateway functions return a string whatever the model call
    gave, and leave the session alone.  The structured one returns the reply
    stripped and with both fence markers replaced by nothing, so that no
    fence is left in it, or the string [{"error": "API communication
    failed: <message>"}] when the call raised; the narrative one returns the
    reply as it is, or a string that begins with [Error: ]. *)
Theorem gateway_returns_strings (env : Env) (prompt : string)
    (img : option Image) (st : store) :
  fst (Gateway.get_gemini_json_response env prompt img st)
  = Ret match generate_content env prompt img with
        | GenText text =>
            replace "```" "" (replace "```json" "" (strip text))
        | GenRaise e =>
            "{" ++ dq ++ "error" ++ dq ++ ": " ++ dq
            ++ "API communication failed: " ++ e ++ dq ++ "}"
        end
  /\ fst (Gateway.get_gemini_text_response env prompt img st)
     = Ret match generate_content env prompt img with
           | GenText text => text
           | GenRaise e => "Error: API communication failed. " ++ e
           end
  /\ session (snd (Gateway.get_gemini_json_response env prompt img st))
     = session st
  /\ session (snd (Gateway.get_gemini_text_response env prompt img st))
     = session st
  /\ (forall text,
        occurs "```" (Gateway.cleaned_response text) = false
        /\ occurs "```json" (Gateway.cleaned_response text) = false)
  /\ (forall e, prefix "Error: " (Gateway.text_error e) = true).
Proof.
  destruct st as [s out]. rewrite get_json_eq, get_text_eq.
  cbn [fst snd session].
  split; [reflexivity|]. split; [reflexivity|].
  split; [reflexivity|]. split; [reflexivity|]. split.
  - intros text. unfold Gateway.cleaned_response. split.
    + apply (unfence_no_fence (replace Gateway.fence_json "" (strip text))).
    + apply (occurs_fence_json
               (replace Gateway.fence ""
                  (replace Gateway.fence_json "" (strip text)))).
      apply unfence_no_fence.
  - intros e. unfold Gateway.text_error.
    change (prefix "Error: " ("Error: API communication failed. " ++ e))
      with (prefix "" ("API communication failed. " ++ e)).
    apply prefix_empty.
Qed.

Lemma single_line_append a b :
  single_line (a ++ b) = single_line a && single_line b.
Proof.
  induction a as [|c a IH]; cbn; [reflexivity|].
  now rewrite IH, andb_assoc.
Qed.

Lemma lines_qa_block q rest :
  single_line q = true ->
  lines ("Q: " ++ q ++ nl ++ rest) = ("Q: " ++ q) :: lines rest.
Proof.
  intros Hq.
  change ("Q: " ++ q ++ nl ++ rest) with ("Q: " ++ (q ++ nl ++ rest)).
  rewrite <- (append_assoc "Q: " q (nl ++ rest)).
  apply lines_append_nl. rewrite single_line_append. now rewrite Hq.
Qed.

Lemma history_str_cons qa qa' h :
  Prompt.history_str (qa :: qa' :: h)
  = Prompt.qa_block qa ++ nl ++ Prompt.history_str (qa' :: h).
Proof. reflexivity. Qed.

(** The lines of the transcript of a history without line feeds. *)
Lemma lines_history_str h :
  forallb single_line_pair h = true ->
  h <> [] ->
  lines (Prompt.history_str h) = qa_lines h.
Proof.
  induction h as [|[q a] h IH]; [congruence|].
  intros Hs _. cbn [forallb] in Hs. apply andb_prop in Hs as [Hqa Hh].
  unfold single_line_pair in Hqa. cbn [fst snd] in Hqa.
  apply andb_prop in Hqa as [Hq Ha].
  assert (HA : single_line ("A: " ++ a) = true)
    by (rewrite single_line_append; now rewrite Ha).
  destruct h as [|qa' h].
  - unfold Prompt.history_str, Prompt.qa_block. cbn [map join fst snd].
    rewrite (lines_qa_block q ("A: " ++ a) Hq).
    rewrite (lines_single _ HA). reflexivity.
  - rewrite history_str_cons. unfold Prompt.qa_block. cbn [fst snd].
    rewrite !append_assoc.
    rewrite (lines_qa_block q _ Hq).
    rewrite <- (append_assoc "A: " a).
    rewrite (lines_append_nl _ _ HA).
    rewrite (IH Hh) by discriminate. reflexivity.
Qed.

Lemma count_q_lines h :
  List.length (filter (prefix "Q: ") (qa_lines h)) = List.length h.
Proof.
  induction h as [|[q a] h IH]; [reflexivity|].
  cbn [qa_lines flat_map fst snd app filter].
  change (prefix "Q: " ("Q: " ++ q)) with (prefix "" q).
  rewrite prefix_empty. cbn. now rewrite <- IH.
Qed.

Lemma count_a_lines h :
  List.length (filter (prefix "A: ") (qa_lines h)) = List.length h.
Proof.
  induction h as [|[q a] h IH]; [reflexivity|].
  cbn [qa_lines flat_map fst snd app filter].
  change (prefix "A: " ("A: " ++ a)) with (prefix "" a).
  rewrite prefix_empty. cbn. now rewrite <- IH.
Qed.

(** C7, as amended.  The analysis prompt is a function of the history: the
    fixed head, the transcript and the fixed tail, where the transcript is
    the blocks [Q: question / A: answer] of the pairs, in their order, joined
    by line feeds.  For a history of N pairs whose texts hold no line feed
    the lines of the transcript are exactly the N pairs of lines, in order. *)
Theorem transcript_lines (h : list (string * string)) :
  forallb single_line_pair h = true ->
  Prompt.create_final_analysis_prompt h
  = Prompt.analysis_head
    ++ join nl (map (fun qa => "Q: " ++ fst qa ++ nl ++ "A: " ++ snd qa) h)
    ++ Prompt.analysis_tail
  /\ (h <> [] -> lines (Prompt.history_str h) = qa_lines h)
  /\ count_lines_with "Q: " (Prompt.history_str h) = List.length h
  /\ count_lines_with "A: " (Prompt.history_str h) = List.length h
  /\ List.length (qa_lines h) = 2 * List.length h
  /\ (forall (rt : PyRuntime) env s img,
        uploaded_file env = GoodFile img ->
        conversation_started s = true ->
        Py.len (triage_questions s) = Ret (current_question_index s) ->
        transcript (conversation_history s) = h ->
        List.length h = List.length (conversation_history s)
        /\ narrative (output_of env s)
           = [GeminiText (Prompt.create_final_analysis_prompt h)
                (image (after_upload env s))]).
Proof.
  intros Hs. split; [reflexivity|]. split; [now apply lines_history_str|].
  assert (Hlen : forall l, List.length (qa_lines l) = 2 * List.length l).
  { intros l. unfold qa_lines. induction l as [|x l IH]; [reflexivity|].
    cbn [flat_map app List.length]. rewrite IH. cbn. lia. }
  assert (Hpass : forall (rt : PyRuntime) env s img,
            uploaded_file env = GoodFile img ->
            conversation_started s = true ->
            Py.len (triage_questions s) = Ret (current_question_index s) ->
            transcript (conversation_history s) = h ->
            List.length h = List.length (conversation_history s)
            /\ narrative (output_of env s)
               = [GeminiText (Prompt.create_final_analysis_prompt h)
                    (image (after_upload env s))]).
  { intros rt env s img Hu Hst Hn <-. split.
    - unfold transcript. apply length_map.
    - apply (pending_pass env s img Hu Hst Hn). }
  unfold count_lines_with.
  destruct h as [|qa h].
  - split; [reflexivity|]. split; [reflexivity|].
    split; [reflexivity|exact Hpass].
  - rewrite (lines_history_str _ Hs) by discriminate.
    split; [apply count_q_lines|]. split; [apply count_a_lines|].
    split; [apply Hlen|exact Hpass].
Qed.

End GatewayAndPrompt.

(** C7 as stated fails: one pair whose question holds two line feeds gives a
    transcript of two [Q:]/[A:] line pairs. *)
Lemma transcript_lines_of_multiline_question :
  List.length Sample.history_with_line_feeds = 1
  /\ PyStr.lines (Prompt.history_str Sample.history_with_line_feeds)
     = ["Q: x"; "A: y"; "Q: z"; "A: w"]
  /\ count_lines_with "Q: " (Prompt.history_str Sample.history_with_line_feeds)
     = 2
  /\ count_lines_with "A: " (Prompt.history_str Sample.history_with_line_feeds)
     = 2.
Proof. repeat split. Qed.

(** C7 as amended, at the scenario: one pair, two lines. *)
Lemma transcript_lines_witness :
  let h := [("Duration?", "1-3d")] in
  Prompt.create_final_analysis_prompt h
  = Prompt.analysis_head
    ++ PyStr.join PyStr.nl
         (map (fun qa => "Q: " ++ fst qa ++ PyStr.nl ++ "A: " ++ snd qa) h)
    ++ Prompt.analysis_tail
  /\ (h <> [] -> PyStr.lines (Prompt.history_str h) = qa_lines h)
  /\ count_lines_with "Q: " (Prompt.history_str h) = List.length h
  /\ count_lines_with "A: " (Prompt.history_str h) = List.length h
  /\ List.length (qa_lines h) = 2 * List.length h
  /\ (forall (rt : PyRuntime) env s img,
        uploaded_file env = GoodFile img ->
        conversation_started s = true ->
        Py.len (triage_questions s) = Ret (current_question_index s) ->
        transcript (conversation_history s) = h ->
        List.length h = List.length (conversation_history s)
        /\ narrative (output_of env s)
           = [GeminiText (Prompt.create_final_analysis_prompt h)
                (image (after_upload env s))]).
Proof.
  apply (transcript_lines [("Duration?", "1-3d")]). reflexivity.
Defined.

(** ** The scenarios of the spec, run on the model *)

Section Scenarios.
Import Sample PyStr.

(** Upload, start, one question, the answer "1-3d", and the pass that
    follows: the analysis is the gateway's text and the session is
    complete, after one narrative call. *)
Example scenario_one_question :
  let run :=
    @run_passes runtime
      [env_idle; env_start_duration; env_answer; rerun_env env_answer]
      initial_session in
  fst run = store_analysis "Analysis text" s_answered
  /\ phase (fst run) = Some Complete
  /\ narrative_calls (snd run) = 1.
Proof. repeat split; reflexivity. Qed.

(** The model returns prose: the questions stay empty, the conversation is
    not started, and the start button is offered again. *)
Example scenario_invalid_json :
  @run_script runtime env_start_garbage s_uploaded
  = (Ret tt,
     mkStore s_uploaded
       [StImage img1; triage_call s_uploaded; StError triage_failed_message;
        StInfo analysis_placeholder])
  /\ phase s_uploaded = Some AwaitingTriageStart.
Proof. split; reflexivity. Qed.

(** An object without questions: the analysis is pending at once. *)
Example scenario_no_questions :
  @session_after runtime env_start_no_questions s_uploaded = s_no_questions
  /\ phase s_no_questions = Some AnalysisPending.
Proof. split; reflexivity. Qed.

(** A second file in the uploader does not replace the stored image. *)
Example scenario_second_upload :
  @session_after runtime env_other_file s_uploaded = s_uploaded.
Proof. reflexivity. Qed.

(** A fenced reply: the fences go, the line feeds inside stay. *)
Example cleaned_response_fenced :
  Gateway.cleaned_response
    ("  ```json" ++ nl ++ reply_empty_object ++ nl ++ "```" ++ nl)
  = nl ++ reply_empty_object ++ nl.
Proof. reflexivity. Qed.

End Scenarios.

(** * Further properties of the script *)

(** ** The shapes of a pass *)

Section PassShapes.
Context {rt : PyRuntime}.
Variable env : Env.

(** What the question branch adds to the output and does to the session. *)
Lemma ask_question_output s out :
  exists r s' extra,
    ask_question env (mkStore s out) = (r, mkStore s' (out ++ extra)%list)
    /\ (extra = [] \/ exists v, extra = [StWrite v]).
Proof.
  unfold ask_question, bind, read, lift, emit. cbn [session output].
  destruct (Py.getitem_int _ _) as [cq|e].
  2:{ exists (Exc e), s, []. rewrite app_nil_r. auto. }
  destruct (Py.getitem_str cq "question_text") as [qt|e].
  2:{ exists (Exc e), s, []. rewrite app_nil_r. auto. }
  destruct (Py.getitem_str cq "options") as [qo|e].
  2:{ exists (Exc e), s, []. rewrite app_nil_r. auto. }
  destruct (Py.len qo) as [m|e].
  2:{ exists (Exc e), s, [StWrite qt]. eauto. }
  destruct (Nat.eqb m 0); cbn.
  { exists (Exc StreamlitAPIException), s, [StWrite qt]. eauto. }
  destruct (Py.iter qo) as [opts|e].
  2:{ exists (Exc e), s, [StWrite qt]. eauto. }
  rewrite option_buttons_eq.
  destruct (first_pressed env 0 opts); eexists _, _, [StWrite qt]; eauto.
Qed.

Lemma conversation_output s out :
  exists r s' extra,
    conversation env (mkStore s out)
    = (r, mkStore s' (out ++ shown (conversation_history s) ++ extra)%list)
    /\ (extra = [] \/ (exists v, extra = [StWrite v])
        \/ (extra = [analysis_call s]
            /\ exists n, Py.len (triage_questions s) = Ret n
                         /\ n <= current_question_index s)).
Proof.
  unfold conversation, bind, read, lift. cbn [session output].
  rewrite show_history_eq.
  destruct (Py.len (triage_questions s)) as [n|e] eqn:En.
  2:{ exists (Exc e), s, []. rewrite app_nil_r. auto. }
  destruct (Nat.ltb (current_question_index s) n) eqn:El.
  - destruct (ask_question_output s (out ++ shown (conversation_history s)))
      as (r & s' & extra & Heq & Hex).
    exists r, s', extra. rewrite Heq, <- app_assoc. split; [reflexivity|].
    destruct Hex; auto.
  - apply Nat.ltb_ge in El. rewrite final_analysis_branch_eq.
    eexists _, _, [analysis_call s]. rewrite <- app_assoc. split; [reflexivity|].
    right. right. eauto.
Qed.

Lemma run_script_no_file s :
  uploaded_file env = NoFile ->
  run_script env s = (Ret tt, mkStore s [column2_effect s]).
Proof.
  intros Hu. unfold run_script, script, column1. rewrite Hu.
  unfold bind, ret. now rewrite column2_eq.
Qed.

Lemma run_script_bad_file s :
  uploaded_file env = BadFile ->
  run_script env s = (Exc UnidentifiedImageError, mkStore s []).
Proof.
  intros Hu. unfold run_script, script, column1. now rewrite Hu.
Qed.

Lemma after_upload_good s img :
  uploaded_file env = GoodFile img ->
  after_upload env s
  = match image s with None => store_image img s | Some _ => s end.
Proof. intros Hu. unfold after_upload. now rewrite Hu. Qed.

Lemma run_script_idle s img :
  uploaded_file env = GoodFile img ->
  conversation_started s = false ->
  (final_analysis s <> None \/ start_button env = false) ->
  let s0 := after_upload env s in
  run_script env s = (Ret tt, mkStore s0 [StImage img; column2_effect s0]).
Proof.
  intros Hu Hst Hor s0.
  destruct (after_upload_fields env s) as (Es & _ & _ & _ & Ef).
  fold s0 in Es, Ef. rewrite <- Es in Hst. rewrite <- Ef in Hor.
  pose proof (after_upload_good s img Hu) as Hs0. fold s0 in Hs0.
  unfold run_script, script, column1. rewrite Hu.
  unfold bind at 1 2. rewrite store_upload_eq, <- Hs0.
  unfold bind, emit, read. cbn [session output app].
  rewrite Hst. cbn [negb andb].
  destruct (final_analysis s0) eqn:Hf; cbn [is_none when].
  - unfold ret. cbn [session]. rewrite Hst. cbn [when]. unfold ret.
    now rewrite column2_eq.
  - destruct Hor as [Hor|Hb]; [congruence|]. rewrite Hb. cbn [when].
    unfold ret. cbn [session]. rewrite Hst. cbn [when]. unfold ret.
    now rewrite column2_eq.
Qed.

Lemma run_script_conversation s img :
  uploaded_file env = GoodFile img ->
  conversation_started s = true ->
  let s0 := after_upload env s in
  run_script env s
  = match conversation env (mkStore s0 [StImage img]) with
    | (Ret _, st) => column2 st
    | (Exc e, st) => (Exc e, st)
    end.
Proof.
  intros Hu Hst s0.
  destruct (after_upload_fields env s) as (Es & _).
  fold s0 in Es. rewrite <- Es in Hst.
  pose proof (after_upload_good s img Hu) as Hs0. fold s0 in Hs0.
  unfold run_script, script, column1. rewrite Hu.
  unfold bind at 1 2. rewrite store_upload_eq, <- Hs0.
  unfold bind, emit, read. cbn [session output app].
  rewrite Hst. cbn [negb andb when]. unfold ret at 1. cbn [session].
  rewrite Hst. cbn [when].
  destruct (conversation env _) as [[[]|e] st]; reflexivity.
Qed.

Lemma quiet_app a b : quiet a -> quiet b -> quiet (a ++ b).
Proof. intros Ha Hb. apply Forall_app. now split. Qed.

Lemma quiet_shown h : quiet (shown h).
Proof.
  induction h as [|[q a] h IH]; cbn; [constructor|].
  repeat constructor. exact IH.
Qed.

Lemma quiet_column2 s : quiet [column2_effect s].
Proof.
  unfold column2_effect.
  destruct (final_analysis s) as [[|c t]|]; repeat constructor.
Qed.

Lemma quiet_calls out : quiet out -> gateway_calls out = 0.
Proof.
  unfold gateway_calls. induction 1 as [|e l He Hl IH]; cbn; [reflexivity|].
  now rewrite He.
Qed.

Lemma quiet_not_in out e : quiet out -> In e out -> is_gateway_call e = false.
Proof. intros Hq Hin. unfold quiet in Hq. rewrite Forall_forall in Hq. auto. Qed.

Lemma gateway_calls_app a b :
  gateway_calls (a ++ b) = gateway_calls a + gateway_calls b.
Proof. unfold gateway_calls. now rewrite filter_app, length_app. Qed.

Lemma output_calls s : pass_calls env s (output_of env s).
Proof.
  destruct (after_upload_fields env s) as (Es & Eq & Ei & Eh & Ef).
  unfold output_of.
  destruct (uploaded_file env) as [| |img] eqn:Hu.
  - rewrite (run_script_no_file s Hu). apply calls_none, quiet_column2.
  - rewrite (run_script_bad_file s Hu). apply calls_none. constructor.
  - destruct (conversation_started s) eqn:Hst.
    + rewrite (run_script_conversation s img Hu Hst).
      destruct (conversation_output (after_upload env s) [StImage img])
        as (r & s' & extra & Hc & Hex).
      rewrite Hc.
      assert (Himg : quiet [StImage img]) by repeat constructor.
      pose proof (quiet_shown (conversation_history (after_upload env s))) as Hsh.
      assert (Hout : exists tail, quiet tail
                 /\ output (snd match r with
                                | Ret _ =>
                                    column2
                                      (mkStore s'
                                         ([StImage img]
                                          ++ shown (conversation_history (after_upload env s))
                                          ++ extra))
                                | Exc e =>
                                    (Exc e,
                                     mkStore s'
                                       ([StImage img]
                                        ++ shown (conversation_history (after_upload env s))
                                        ++ extra))
                                end)
                    = (([StImage img]
                        ++ shown (conversation_history (after_upload env s))
                        ++ extra) ++ tail)%list).
      { destruct r as [[]|e].
        - rewrite column2_eq. eexists. split; [apply quiet_column2|reflexivity].
        - exists []. rewrite app_nil_r. split; [constructor|reflexivity]. }
      destruct Hout as (tail & Htail & Hout). rewrite Hout. clear Hout Hc.
      destruct Hex as [->|[[v ->]|[-> (n & Hn & Hle)]]].
      * apply calls_none. rewrite app_nil_r.
        repeat apply quiet_app; auto.
      * apply calls_none. repeat apply quiet_app; auto. repeat constructor.
      * rewrite <- !app_assoc. rewrite app_assoc.
        change ([analysis_call (after_upload env s)] ++ tail)%list
          with (analysis_call (after_upload env s) :: tail).
        rewrite Eq, Ei in *.
        eapply calls_analysis; eauto. now apply quiet_app.
    + assert (Hidle : quiet [StImage img; column2_effect (after_upload env s)]).
      { change (quiet ([StImage img] ++ [column2_effect (after_upload env s)])).
        apply quiet_app; [repeat constructor|apply quiet_column2]. }
      destruct (final_analysis s) as [t|] eqn:Hfin.
      { rewrite (run_script_idle s img Hu Hst) by (left; congruence).
        now apply calls_none. }
      destruct (start_button env) eqn:Hb.
      2:{ rewrite (run_script_idle s img Hu Hst) by (right; exact Hb).
          now apply calls_none. }
      rewrite (run_script_start env s img Hu Hb Hst Hfin).
      assert (Himg : quiet [StImage img]) by repeat constructor.
      destruct (json_loads _) as [[]|]; cbn [snd output];
        apply (calls_triage env s [StImage img]); auto; try constructor.
      * reflexivity.
      * apply quiet_column2.
Qed.

Lemma calls_at_most_one s : gateway_calls (output_of env s) <= 1.
Proof.
  destruct (output_calls s) as [out Hq|l1 l2 H1 H2 Hst Hf Hb|l1 l2 n H1 H2 Hst Hn Hle].
  - rewrite (quiet_calls _ Hq). lia.
  - rewrite gateway_calls_app.
    change (triage_call (after_upload env s) :: l2)
      with ([triage_call (after_upload env s)] ++ l2)%list.
    rewrite gateway_calls_app, (quiet_calls _ H1), (quiet_calls _ H2). cbn. lia.
  - rewrite gateway_calls_app.
    change (analysis_call (after_upload env s) :: l2)
      with ([analysis_call (after_upload env s)] ++ l2)%list.
    rewrite gateway_calls_app, (quiet_calls _ H1), (quiet_calls _ H2). cbn. lia.
Qed.

Lemma json_call_guard s p i :
  In (GeminiJSON p i) (output_of env s) ->
  p = Prompt.create_triage_prompt
  /\ i = image (after_upload env s)
  /\ conversation_started s = false
  /\ final_analysis s = None
  /\ start_button env = true.
Proof.
  intros Hin.
  destruct (output_calls s) as [out Hq|l1 l2 H1 H2 Hst Hf Hb|l1 l2 n H1 H2 Hst Hn Hle].
  - apply (quiet_not_in _ _ Hq) in Hin. discriminate.
  - apply in_app_or in Hin as [Hin|[Hin|Hin]].
    + apply (quiet_not_in _ _ H1) in Hin. discriminate.
    + unfold triage_call in Hin. injection Hin as <- <-. auto.
    + apply (quiet_not_in _ _ H2) in Hin. discriminate.
  - apply in_app_or in Hin as [Hin|[Hin|Hin]].
    + apply (quiet_not_in _ _ H1) in Hin. discriminate.
    + discriminate.
    + apply (quiet_not_in _ _ H2) in Hin. discriminate.
Qed.

Lemma text_call_guard s p i :
  In (GeminiText p i) (output_of env s) ->
  p = analysis_prompt s
  /\ i = image (after_upload env s)
  /\ conversation_started s = true
  /\ exists n, Py.len (triage_questions s) = Ret n
               /\ n <= current_question_index s.
Proof.
  intros Hin.
  destruct (after_upload_fields env s) as (Es & Eq & Ei & Eh & Ef).
  destruct (output_calls s) as [out Hq|l1 l2 H1 H2 Hst Hf Hb|l1 l2 n H1 H2 Hst Hn Hle].
  - apply (quiet_not_in _ _ Hq) in Hin. discriminate.
  - apply in_app_or in Hin as [Hin|[Hin|Hin]].
    + apply (quiet_not_in _ _ H1) in Hin. discriminate.
    + discriminate.
    + apply (quiet_not_in _ _ H2) in Hin. discriminate.
  - apply in_app_or in Hin as [Hin|[Hin|Hin]].
    + apply (quiet_not_in _ _ H1) in Hin. discriminate.
    + unfold analysis_call in Hin. injection Hin as <- <-.
      unfold analysis_prompt. rewrite Eh. eauto 10.
    + apply (quiet_not_in _ _ H2) in Hin. discriminate.
Qed.

(** X4.  A pass calls the model at most once.  The structured gateway is
    called only with the triage prompt and the stored image, when the start
    button is pressed with no conversation started and no analysis stored;
    the narrative gateway only with the prompt of the current history and the
    stored image, in a started session whose index has reached the number of
    questions. *)
Theorem one_gateway_call_per_pass s :
  gateway_calls (output_of env s) <= 1
  /\ (forall p i, In (GeminiJSON p i) (output_of env s) ->
        p = Prompt.create_triage_prompt
        /\ i = image (after_upload env s)
        /\ conversation_started s = false
        /\ final_analysis s = None
        /\ start_button env = true)
  /\ (forall p i, In (GeminiText p i) (output_of env s) ->
        p = analysis_prompt s
        /\ i = image (after_upload env s)
        /\ conversation_started s = true
        /\ exists n, Py.len (triage_questions s) = Ret n
                     /\ n <= current_question_index s).
Proof.
  split; [apply calls_at_most_one|].
  split; intros p i Hin; [now apply json_call_guard|now apply text_call_guard].
Qed.
End PassShapes.

(** ** Answers, failures and begun conversations *)

Section Answers.
Context {rt : PyRuntime}.
Variable env : Env.

Lemma quiet_pass_session s :
  status_of env s <> Exc RerunException ->
  session_after env s = after_upload env s.
Proof.
  unfold status_of, session_after.
  destruct (script_outcome env s); cbn [fst snd session]; congruence.
Qed.

(** X6.  A pass that does not end by [st.rerun()], be it a normal end or
    any exception, leaves the session as the upload handler left it: the
    history, the index, the questions, the started flag and the analysis
    are those before the pass. *)
Theorem no_rerun_no_change s :
  status_of env s <> Exc RerunException ->
  session_after env s = after_upload env s
  /\ conversation_history (session_after env s) = conversation_history s
  /\ current_question_index (session_after env s) = current_question_index s
  /\ triage_questions (session_after env s) = triage_questions s
  /\ conversation_started (session_after env s) = conversation_started s
  /\ final_analysis (session_after env s) = final_analysis s.
Proof.
  intros H. rewrite (quiet_pass_session s H).
  destruct (after_upload_fields env s) as (Es & Eq & Ei & Eh & Ef).
  auto 10.
Qed.

Lemma first_pressed_in i options o :
  first_pressed env i options = Chosen o -> In o options.
Proof.
  revert i. induction options as [|x rest IH]; intros i; cbn; [discriminate|].
  destruct (option_button env i x); try discriminate.
  - intros [= ->]. auto.
  - intros H. right. eapply IH; eauto.
Qed.

Lemma run_script_answer s img n cq q_text q_options m options o :
  uploaded_file env = GoodFile img ->
  conversation_started s = true ->
  Py.len (triage_questions s) = Ret n ->
  current_question_index s < n ->
  Py.getitem_int (triage_questions s) (current_question_index s) = Ret cq ->
  Py.getitem_str cq "question_text" = Ret q_text ->
  Py.getitem_str cq "options" = Ret q_options ->
  Py.len q_options = Ret (S m) ->
  Py.iter q_options = Ret options ->
  first_pressed env 0 options = Chosen o ->
  run_script env s
  = (Exc RerunException,
     mkStore (record_answer q_text o (after_upload env s))
       ([StImage img] ++ shown (conversation_history s) ++ [StWrite q_text])).
Proof.
  intros Hu Hst Hn Hi Hq Ht Ho Hm Hit Hp.
  destruct (after_upload_fields env s) as (Es & Eq & Ei & Eh & Ef).
  pose proof (run_script_conversation env s img Hu Hst) as Hrun.
  cbv zeta in Hrun.
  assert (Hconv : conversation env (mkStore (after_upload env s) [StImage img])
                  = (Exc RerunException,
                     mkStore (record_answer q_text o (after_upload env s))
                       ([StImage img] ++ shown (conversation_history s)
                        ++ [StWrite q_text]))).
  { unfold conversation, bind, read, lift. cbn [session output].
    rewrite show_history_eq, Eq, Hn, Ei, Eh.
    apply Nat.ltb_lt in Hi. rewrite Hi.
    unfold ask_question, bind, read, lift, emit. cbn [session output].
    rewrite Eq, Ei, Hq, Ht, Ho, Hm. cbn [Nat.eqb]. unfold ret. rewrite Hit.
    rewrite option_buttons_eq, Hp. now rewrite <- app_assoc. }
  now rewrite Hconv in Hrun.
Qed.

(** X1.  At a question that has its text and a non-empty collection of
    options, the first option button that reads as pressed decides the pass:
    the pair (question text, that option) is appended to the history, the
    index goes up by one, the pass asks for a rerun, and the questions, the
    started flag and the analysis are untouched; no gateway is called. *)
Theorem answer_recorded s img n cq q_text q_options m options o :
  uploaded_file env = GoodFile img ->
  conversation_started s = true ->
  Py.len (triage_questions s) = Ret n ->
  current_question_index s < n ->
  Py.getitem_int (triage_questions s) (current_question_index s) = Ret cq ->
  Py.getitem_str cq "question_text" = Ret q_text ->
  Py.getitem_str cq "options" = Ret q_options ->
  Py.len q_options = Ret (S m) ->
  Py.iter q_options = Ret options ->
  first_pressed env 0 options = Chosen o ->
  let s' := session_after env s in
  status_of env s = Exc RerunException
  /\ conversation_history s' = (conversation_history s ++ [(q_text, o)])%list
  /\ current_question_index s' = current_question_index s + 1
  /\ triage_questions s' = triage_questions s
  /\ conversation_started s' = true
  /\ final_analysis s' = final_analysis s
  /\ In o options
  /\ gateway_calls (output_of env s) = 0.
Proof.
  intros Hu Hst Hn Hi Hq Ht Ho Hm Hit Hp s'.
  destruct (after_upload_fields env s) as (Es & Eq & Ei & Eh & Ef).
  pose proof (run_script_answer s img n cq q_text q_options m options o
                Hu Hst Hn Hi Hq Ht Ho Hm Hit Hp) as Hrun.
  unfold s', status_of, session_after, output_of. rewrite Hrun.
  cbn [fst snd session output].
  split; [reflexivity|]. cbn [record_answer conversation_history
    current_question_index triage_questions conversation_started
    final_analysis set_conversation_history set_current_question_index].
  rewrite Eh, Ei, Eq, Ef, Es.
  repeat split; auto.
  - eapply first_pressed_in; eauto.
  - apply quiet_calls. repeat apply quiet_app.
    + repeat constructor.
    + apply quiet_shown.
    + repeat constructor.
Qed.

(** X9.  When the current question has no "question_text", or has one but
    no "options", the pass ends with the exception of that lookup (a
    [KeyError] for a dict without the key, a [TypeError] for a value that is
    no dict) after the image and the chat so far; nothing is recorded,
    whatever the buttons read. *)
Theorem malformed_question_raises s img n cq e :
  uploaded_file env = GoodFile img ->
  conversation_started s = true ->
  Py.len (triage_questions s) = Ret n ->
  current_question_index s < n ->
  Py.getitem_int (triage_questions s) (current_question_index s) = Ret cq ->
  (Py.getitem_str cq "question_text" = Exc e
   \/ (exists q_text, Py.getitem_str cq "question_text" = Ret q_text)
      /\ Py.getitem_str cq "options" = Exc e) ->
  run_script env s
  = (Exc e,
     mkStore (after_upload env s)
       ([StImage img] ++ shown (conversation_history s))).
Proof.
  intros Hu Hst Hn Hi Hq Hbad.
  destruct (after_upload_fields env s) as (Es & Eq & Ei & Eh & Ef).
  pose proof (run_script_conversation env s img Hu Hst) as Hrun.
  cbv zeta in Hrun.
  assert (Hconv : conversation env (mkStore (after_upload env s) [StImage img])
                  = (Exc e,
                     mkStore (after_upload env s)
                       ([StImage img] ++ shown (conversation_history s)))).
  { unfold conversation, bind, read, lift. cbn [session output].
    rewrite show_history_eq, Eq, Hn, Ei, Eh.
    apply Nat.ltb_lt in Hi. rewrite Hi.
    unfold ask_question, bind, read, lift, emit. cbn [session output].
    rewrite Eq, Ei, Hq.
    destruct Hbad as [Ht|[[q_text Ht] Ho]]; rewrite Ht; [reflexivity|].
    now rewrite Ho. }
  now rewrite Hconv in Hrun.
Qed.

(** Invariant [settled]. *)
Lemma settled_initial : settled initial_session.
Proof.
  split; [cbn; auto|]. intros [H|H]; cbn in H; congruence.
Qed.

Lemma settled_pass s : settled s -> settled (session_after env s).
Proof.
  intros [Hfresh Himg].
  destruct (after_upload_fields env s) as (Es & Eq & Ei & Eh & Ef).
  pose proof (image_after_pass env s) as Hi.
  pose proof (rerun_has_file env s) as Hfile.
  unfold session_after, status_of in *.
  remember (run_script env s) as r eqn:Er.
  destruct (script_outcome env s)
    as [r0 out' Hr Hn|d out' Hb Hst Hfin Hl Hn
       |n q o i out' Hst Hl Hle Hp Hn|n out' Hst Hl Hle Hn];
    subst r; cbn [fst snd session] in *.
  - split.
    + rewrite Es, Ef, Eh, Ei. exact Hfresh.
    + unfold engaged. rewrite Es, Ef. intros He. specialize (Himg He).
      rewrite Hi. destruct (image s); [discriminate|contradiction].
  - destruct (Hfile eq_refl) as [img Hu]. split.
    + cbn. discriminate.
    + intros _. rewrite Hi, Hu. destruct (image s); discriminate.
  - destruct (Hfile eq_refl) as [img Hu]. split.
    + cbn. rewrite Hst. discriminate.
    + intros _. rewrite Hi, Hu. destruct (image s); discriminate.
  - destruct (Hfile eq_refl) as [img Hu]. split.
    + cbn. discriminate.
    + intros _. rewrite Hi, Hu. destruct (image s); discriminate.
Qed.

Lemma engaged_pass s : engaged s -> engaged (session_after env s).
Proof.
  destruct (after_upload_fields env s) as (Es & Eq & Ei & Eh & Ef).
  unfold engaged, session_after.
  destruct (script_outcome env s)
    as [r0 out' Hr Hn|d out' Hb Hst Hfin Hl Hn
       |n q o i out' Hst Hl Hle Hp Hn|n out' Hst Hl Hle Hn];
    cbn [snd session].
  - now rewrite Es, Ef.
  - intros _. now left.
  - intros _. left. exact Hst.
  - intros _. right. cbn. discriminate.
Qed.

Lemma engaged_questions s :
  engaged s ->
  triage_questions (session_after env s) = triage_questions s
  /\ (forall p i, ~ In (GeminiJSON p i) (output_of env s)).
Proof.
  intros He.
  destruct (after_upload_fields env s) as (Es & Eq & Ei & Eh & Ef).
  split.
  - unfold session_after.
    destruct (script_outcome env s)
      as [r0 out' Hr Hn|d out' Hb Hst Hfin Hl Hn
         |n q o i out' Hst Hl Hle Hp Hn|n out' Hst Hl Hle Hn];
      cbn [snd session]; auto.
    exfalso. rewrite Es in Hst. rewrite Ef in Hfin.
    destruct He; congruence.
  - intros p i Hin.
    destruct (json_call_guard env s p i Hin) as (_ & _ & Hst & Hfin & _).
    destruct He; congruence.
Qed.

End Answers.

(** ** Whole interactions *)

Section Interactions.
Context {rt : PyRuntime}.

Lemma reachable_settled s : reachable s -> settled s.
Proof.
  induction 1; [apply settled_initial|now apply settled_pass].
Qed.

Lemma settled_run_passes envs : forall s,
  settled s -> settled (fst (run_passes envs s)).
Proof.
  induction envs as [|env envs IH]; intros s Hs; cbn; [assumption|].
  specialize (IH _ (settled_pass env s Hs)).
  destruct (run_passes envs (session_after env s)); assumption.
Qed.

(** One pass never takes anything back. *)
Lemma pass_appends env s :
  settled s ->
  exists added,
    conversation_history (session_after env s)
    = (conversation_history s ++ added)%list
    /\ List.length added <= 1
    /\ current_question_index (session_after env s)
       = current_question_index s + List.length added.
Proof.
  intros [Hfresh _].
  destruct (after_upload_fields env s) as (Es & Eq & Ei & Eh & Ef).
  unfold session_after.
  destruct (script_outcome env s)
    as [r0 out' Hr Hn|d out' Hb Hst Hfin Hl Hn
       |n q o i out' Hst Hl Hle Hp Hn|n out' Hst Hl Hle Hn];
    cbn [snd session].
  - exists []. rewrite app_nil_r, Eh, Ei. cbn. auto with arith.
  - rewrite Es in Hst. rewrite Ef in Hfin.
    destruct (Hfresh Hst Hfin) as [Hh Hi].
    exists []. cbn. rewrite Hh, Hi. auto.
  - exists [(q, o)]. cbn. rewrite Eh, Ei. auto.
  - exists []. cbn. rewrite app_nil_r, Eh, Ei. auto with arith.
Qed.

(** X2.  From a reachable session, whatever the passes, the history only
    grows at its end and the index only goes up: nothing recorded is ever
    removed or rewritten, at most one pair is added per pass, and the index
    goes up by exactly the number of pairs added. *)
Theorem history_append_only (s : Session) (envs : list Env) :
  reachable s ->
  exists added,
    conversation_history (fst (run_passes envs s))
    = (conversation_history s ++ added)%list
    /\ List.length added <= List.length envs
    /\ current_question_index (fst (run_passes envs s))
       = current_question_index s + List.length added.
Proof.
  intros Hr. apply reachable_settled in Hr. revert s Hr.
  induction envs as [|env envs IH]; intros s Hs; cbn.
  - exists []. rewrite app_nil_r. cbn. auto with arith.
  - destruct (pass_appends env s Hs) as (a1 & Hh1 & Hl1 & Hi1).
    destruct (IH _ (settled_pass env s Hs)) as (a2 & Hh2 & Hl2 & Hi2).
    destruct (run_passes envs (session_after env s)) as [s' out]. cbn in *.
    exists (a1 ++ a2)%list. rewrite Hh2, Hh1, Hi2, Hi1, <- app_assoc, length_app.
    repeat split; lia.
Qed.

Lemma complete_pass env s :
  coherent s -> settled s -> final_analysis s <> None ->
  session_after env s = s /\ gateway_calls (output_of env s) = 0.
Proof.
  intros (_ & _ & Hc) [_ Himg] Hfin.
  assert (Hst : conversation_started s = false).
  { destruct (conversation_started s); [|reflexivity].
    now specialize (Hc eq_refl). }
  assert (Hup : after_upload env s = s).
  { unfold after_upload. destruct (uploaded_file env); try reflexivity.
    destruct (image s) eqn:E; [reflexivity|].
    exfalso. apply Himg; [right; exact Hfin|reflexivity]. }
  split.
  - rewrite <- Hup at 2. apply quiet_pass_session.
    unfold status_of.
    destruct (after_upload_fields env s) as (Es & Eq & Ei & Eh & Ef).
    destruct (script_outcome env s)
      as [r0 out' Hr Hn|d out' Hb Hst' Hfin' Hl Hn
         |n q o i out' Hst' Hl Hle Hp Hn|n out' Hst' Hl Hle Hn];
      cbn [fst]; try assumption; exfalso; congruence.
  - destruct (output_calls env s)
      as [out Hq|l1 l2 H1 H2 Hst' Hf Hb|l1 l2 n H1 H2 Hst' Hn Hle].
    + now apply quiet_calls.
    + congruence.
    + congruence.
Qed.

(** X3.  Once an analysis is stored in a reachable session, no pass changes
    the session any more and no gateway is ever called again. *)
Theorem complete_is_final (s : Session) (envs : list Env) :
  reachable s ->
  final_analysis s <> None ->
  fst (run_passes envs s) = s
  /\ gateway_calls (snd (run_passes envs s)) = 0.
Proof.
  intros Hr Hfin.
  pose proof (reachable_coherent s Hr) as Hc.
  pose proof (reachable_settled s Hr) as Hs.
  induction envs as [|env envs IH]; cbn; [auto|].
  destruct (complete_pass env s Hc Hs Hfin) as [Hsame Hcalls].
  rewrite Hsame.
  destruct (run_passes envs s) as [s' out]. cbn [fst snd] in *.
  destruct IH as [-> Hout]. split; [reflexivity|].
  now rewrite gateway_calls_app, Hcalls, Hout.
Qed.

(** X7.  Once a conversation has begun (started, or analysed), no sequence
    of passes changes [triage_questions], and the structured gateway is not
    called again. *)
Theorem questions_frozen (s : Session) (envs : list Env) :
  engaged s ->
  triage_questions (fst (run_passes envs s)) = triage_questions s
  /\ (forall p i, ~ In (GeminiJSON p i) (snd (run_passes envs s))).
Proof.
  revert s. induction envs as [|env envs IH]; intros s He; cbn.
  - split; [reflexivity|]. intros p i [].
  - destruct (engaged_questions env s He) as [Hq Hno].
    destruct (IH _ (engaged_pass env s He)) as [Hq' Hno'].
    destruct (run_passes envs (session_after env s)) as [s' out]. cbn in *.
    split; [congruence|].
    intros p i Hin. apply in_app_or in Hin as [Hin|Hin].
    + exact (Hno p i Hin).
    + exact (Hno' p i Hin).
Qed.

(** X5.  When an image is already stored and the uploader holds a file, the
    pass shows the uploaded image, keeps the stored one, and every gateway
    call of the pass gets the stored image, not the uploaded one. *)
Theorem gateway_gets_stored_image (env : Env) (s : Session)
    (stored uploaded : Image) :
  image s = Some stored ->
  uploaded_file env = GoodFile uploaded ->
  hd_error (output_of env s) = Some (StImage uploaded)
  /\ image (session_after env s) = Some stored
  /\ (forall p i, In (GeminiJSON p i) (output_of env s) -> i = Some stored)
  /\ (forall p i, In (GeminiText p i) (output_of env s) -> i = Some stored).
Proof.
  intros Hi Hu.
  assert (Hup : after_upload env s = s).
  { unfold after_upload. now rewrite Hu, Hi. }
  split; [|split; [|split]].
  - unfold output_of.
    destruct (conversation_started s) eqn:Hst.
    + rewrite (run_script_conversation env s uploaded Hu Hst).
      destruct (conversation_output env (after_upload env s) [StImage uploaded])
        as (r & s' & extra & Hc & _).
      rewrite Hc. destruct r as [[]|e]; [rewrite column2_eq|]; reflexivity.
    + destruct (final_analysis s) as [t|] eqn:Hfin.
      { rewrite (run_script_idle env s uploaded Hu Hst) by (left; congruence).
        reflexivity. }
      destruct (start_button env) eqn:Hb.
      * rewrite (run_script_start env s uploaded Hu Hb Hst Hfin).
        destruct (json_loads _) as [[]|]; reflexivity.
      * rewrite (run_script_idle env s uploaded Hu Hst) by (right; exact Hb).
        reflexivity.
  - rewrite image_after_pass, Hi. reflexivity.
  - intros p i Hin.
    destruct (json_call_guard env s p i Hin) as (_ & -> & _). now rewrite Hup.
  - intros p i Hin.
    destruct (text_call_guard env s p i Hin) as (_ & -> & _). now rewrite Hup.
Qed.

(** X8.  Without a file that opens in the uploader, a pass changes nothing
    in the session, calls no gateway and asks for no rerun, whatever the
    buttons read and whatever the phase. *)
Theorem no_file_no_progress (env : Env) (s : Session) :
  (forall img, uploaded_file env <> GoodFile img) ->
  session_after env s = s
  /\ gateway_calls (output_of env s) = 0
  /\ status_of env s <> Exc RerunException.
Proof.
  intros Hno. unfold session_after, output_of, status_of.
  destruct (uploaded_file env) as [| |img] eqn:Hu.
  - rewrite (run_script_no_file env s Hu). cbn.
    split; [reflexivity|]. split; [apply (quiet_calls _ (quiet_column2 s))|discriminate].
  - rewrite (run_script_bad_file env s Hu). cbn. repeat split. discriminate.
  - exfalso. now apply (Hno img).
Qed.

(** X10.  When the stored analysis is the empty string, a pass shows no
    analysis: the placeholder is shown instead, no gateway is called, and
    the session stays complete with its empty analysis. *)
Theorem empty_analysis_shows_placeholder (env : Env) (s : Session) :
  final_analysis s = Some "" ->
  conversation_started s = false ->
  (forall text, ~ In (StMarkdown text) (output_of env s))
  /\ (uploaded_file env <> BadFile ->
      In (StInfo analysis_placeholder) (output_of env s))
  /\ gateway_calls (output_of env s) = 0
  /\ final_analysis (session_after env s) = Some ""
  /\ phase (session_after env s) = Some Complete.
Proof.
  intros Hfin Hst.
  destruct (after_upload_fields env s) as (Es & Eq & Ei & Eh & Ef).
  assert (Hc2 : forall s0, final_analysis s0 = Some "" ->
                  column2_effect s0 = StInfo analysis_placeholder).
  { intros s0 H0. unfold column2_effect. now rewrite H0. }
  assert (Hrun : session_after env s = after_upload env s).
  { apply quiet_pass_session. unfold status_of.
    destruct (script_outcome env s)
      as [r0 out' Hr Hn|d out' Hb Hst' Hfin' Hl Hn
         |n q o i out' Hst' Hl Hle Hp Hn|n out' Hst' Hl Hle Hn];
      cbn [fst]; try assumption; exfalso; congruence. }
  assert (Hph : phase (session_after env s) = Some Complete).
  { rewrite Hrun. unfold phase. now rewrite Es, Ef, Hst, Hfin. }
  assert (Hfa : final_analysis (session_after env s) = Some "").
  { now rewrite Hrun, Ef. }
  unfold output_of.
  destruct (uploaded_file env) as [| |img] eqn:Hu.
  - rewrite (run_script_no_file env s Hu). cbn [snd output].
    rewrite (Hc2 s Hfin). repeat split; auto.
    + intros text [H|[]]; discriminate.
    + intros _. now left.
  - rewrite (run_script_bad_file env s Hu). cbn [snd output].
    repeat split; auto. congruence.
  - rewrite (run_script_idle env s img Hu Hst) by (left; congruence).
    cbn [snd output]. rewrite (Hc2 (after_upload env s)) by congruence.
    repeat split; auto.
    + intros text [H|[H|[]]]; discriminate.
    + intros _. right. now left.
Qed.

End Interactions.

(** ** From the start to the last answer *)

Section Questionnaire.
Context {rt : PyRuntime}.

(** X11.  When the reply is an object without the "questions" key, or with
    the empty list under it, the start pass leaves the session in
    [AnalysisPending] with an empty history, and the pass that follows calls
    the narrative gateway with the prompt whose transcript is empty and
    stores what it returns. *)
Theorem no_questions_straight_to_analysis (env : Env) (s : Session)
    (img : Image) (d : list (string * json)) :
  uploaded_file env = GoodFile img ->
  start_button env = true ->
  conversation_started s = false ->
  final_analysis s = None ->
  json_loads (triage_reply env (after_upload env s)) = Loaded (JObject d) ->
  questions_of d = JList [] ->
  let s1 := session_after env s in
  let s2 := session_after (rerun_env env) s1 in
  let bare_prompt := Prompt.analysis_head ++ Prompt.analysis_tail in
  phase s1 = Some AnalysisPending
  /\ conversation_history s1 = []
  /\ narrative (output_of (rerun_env env) s1)
     = [GeminiText bare_prompt (image s1)]
  /\ final_analysis s2
     = Some (Gateway.text_reply env bare_prompt (image s1))
  /\ phase s2 = Some Complete.
Proof.
  intros Hu Hb Hst Hfin Hl Hq s1 s2 bare.
  pose proof (run_script_start env s img Hu Hb Hst Hfin) as Hrun.
  cbv zeta in Hrun. rewrite Hl, Hq in Hrun.
  assert (Hs1 : s1 = commit_triage (JList []) (after_upload env s)).
  { unfold s1, session_after. now rewrite Hrun. }
  assert (Himg : image s1 <> None).
  { unfold s1. rewrite image_after_pass, Hu. destruct (image s); discriminate. }
  assert (Hu' : uploaded_file (rerun_env env) = GoodFile img) by exact Hu.
  assert (Hup : after_upload (rerun_env env) s1 = s1).
  { unfold after_upload. rewrite Hu'. destruct (image s1); congruence. }
  assert (Hst1 : conversation_started s1 = true) by now rewrite Hs1.
  assert (Hh1 : conversation_history s1 = []) by now rewrite Hs1.
  assert (Hn1 : Py.len (triage_questions s1) = Ret (current_question_index s1))
    by now rewrite Hs1.
  destruct (pending_pass (rerun_env env) s1 img Hu' Hst1 Hn1)
    as (_ & Hcalls & Hfa & Hstarted & _).
  rewrite Hup, Hh1 in Hcalls, Hfa.
  change (Prompt.create_final_analysis_prompt (transcript [])) with bare
    in Hcalls, Hfa.
  fold s2 in Hfa, Hstarted.
  split; [now rewrite Hs1|]. split; [exact Hh1|]. split; [exact Hcalls|].
  split.
  - rewrite Hfa. unfold Gateway.text_reply, Gateway.text_error. reflexivity.
  - unfold phase. now rewrite Hstarted, Hfa.
Qed.

Lemma first_pressed_choice img answer choice i options :
  In choice options ->
  first_pressed (choosing img answer choice) i (map JString options)
  = Chosen (JString choice).
Proof.
  revert i. induction options as [|x rest IH]; intros i Hin; [destruct Hin|].
  cbn. destruct (String.eqb_spec choice x) as [->|Hne]; [reflexivity|].
  apply IH. destruct Hin as [->|Hin]; [contradiction|exact Hin].
Qed.

(** One answer pass of [choosing] at a well-formed question. *)
Lemma choosing_pass img answer choice before spec rest s :
  In choice (snd spec) ->
  conversation_started s = true ->
  image s = Some img ->
  triage_questions s = JList (map question (before ++ spec :: rest)) ->
  current_question_index s = List.length before ->
  run_script (choosing img answer choice) s
  = (Exc RerunException,
     mkStore (record_answer (JString (fst spec)) (JString choice) s)
       ([StImage img] ++ shown (conversation_history s)
        ++ [StWrite (JString (fst spec))])).
Proof.
  intros Hin Hst Himg Hq Hi.
  assert (Hup : after_upload (choosing img answer choice) s = s).
  { unfold after_upload. cbn. now rewrite Himg. }
  destruct (snd spec) as [|o1 os] eqn:Hopts; [destruct Hin|].
  rewrite <- Hup at 2.
  eapply (run_script_answer (choosing img answer choice) s img
            (List.length (map question (before ++ spec :: rest)))
            (question spec) (JString (fst spec))
            (JList (map JString (snd spec))) (List.length os)
            (map JString (snd spec)) (JString choice)).
  - reflexivity.
  - exact Hst.
  - now rewrite Hq.
  - rewrite Hi, length_map, length_app. cbn. lia.
  - rewrite Hq, Hi. cbn [Py.getitem_int].
    rewrite map_app, nth_error_app2 by (rewrite length_map; lia).
    rewrite length_map, Nat.sub_diag. reflexivity.
  - reflexivity.
  - reflexivity.
  - rewrite Hopts. cbn. now rewrite length_map.
  - reflexivity.
  - apply first_pressed_choice. now rewrite Hopts.
Qed.

Lemma choosing_passes img answer : forall rest choices before s,
  Forall2 (fun spec choice => In choice (snd spec)) rest choices ->
  conversation_started s = true ->
  image s = Some img ->
  triage_questions s = JList (map question (before ++ rest)) ->
  current_question_index s = List.length before ->
  let run := run_passes (map (choosing img answer) choices) s in
  conversation_history (fst run)
  = (conversation_history s ++ map answered (combine rest choices))%list
  /\ current_question_index (fst run) = List.length before + List.length rest
  /\ triage_questions (fst run) = triage_questions s
  /\ conversation_started (fst run) = true
  /\ final_analysis (fst run) = final_analysis s
  /\ image (fst run) = Some img
  /\ gateway_calls (snd run) = 0.
Proof.
  induction rest as [|spec rest IH]; intros choices before s Hall Hst Himg Hq Hi.
  - inversion Hall; subst. cbn. rewrite app_nil_r, Nat.add_0_r. auto 10.
  - inversion Hall as [|? choice ? choices' Hin Hrest]; subst.
    pose proof (choosing_pass img answer choice before spec rest s
                  Hin Hst Himg Hq Hi) as Hrun.
    set (s1 := record_answer (JString (fst spec)) (JString choice) s).
    assert (Hq1 : triage_questions s1
                  = JList (map question ((before ++ [spec]) ++ rest))).
    { cbn. now rewrite <- app_assoc. }
    assert (Hi1 : current_question_index s1 = List.length (before ++ [spec])).
    { cbn. rewrite Hi, length_app. reflexivity. }
    specialize (IH choices' (before ++ [spec])%list s1 Hrest Hst Himg Hq1 Hi1).
    cbv zeta in IH.
    cbn [map run_passes]. unfold session_after, output_of. rewrite Hrun.
    cbn [snd session output]. fold s1.
    destruct (run_passes (map (choosing img answer) choices') s1) as [s' out].
    cbn [fst snd] in *.
    destruct IH as (Hh & Hidx & Hqs & Hs' & Hf & Him & Hg).
    rewrite Hh, Hidx, Hqs, Hs', Hf, Him.
    split; [cbn; now rewrite <- app_assoc|].
    split; [rewrite length_app; cbn; lia|].
    repeat split; auto.
    rewrite !gateway_calls_app, Hg, Nat.add_0_r.
    rewrite (quiet_calls _ (quiet_shown (conversation_history s))).
    reflexivity.
Qed.

(** X12.  For questions as the prompt asks for them, a user who presses
    one offered option per question, in turn, ends with the history of the
    pairs (question text, chosen option) in the order of the questions, the
    index at the number of questions, the session in [AnalysisPending], and
    no gateway called on the way; the transcript of the prompt is the list of
    those texts. *)
Theorem questionnaire_answered (img : Image) (answer : gen_result)
    (specs : list (string * list string)) (choices : list string) :
  Forall2 (fun spec choice => In choice (snd spec)) specs choices ->
  let s0 :=
    commit_triage (JList (map question specs))
      (store_image img initial_session) in
  let run := run_passes (map (choosing img answer) choices) s0 in
  conversation_history (fst run) = map answered (combine specs choices)
  /\ transcript (conversation_history (fst run))
     = map (fun qc => (fst (fst qc), snd qc)) (combine specs choices)
  /\ current_question_index (fst run) = List.length specs
  /\ phase (fst run) = Some AnalysisPending
  /\ gateway_calls (snd run) = 0.
Proof.
  intros Hall s0 run.
  destruct (choosing_passes img answer specs choices [] s0 Hall
              eq_refl eq_refl eq_refl eq_refl)
    as (Hh & Hi & Hq & Hst & Hf & Him & Hg).
  fold run in Hh, Hi, Hq, Hst, Hf, Him, Hg. cbn in Hh, Hi, Hq.
  split; [exact Hh|]. split.
  - rewrite Hh. unfold transcript. rewrite map_map.
    apply map_ext. intros [[q opts] c]. cbn. now rewrite !py_str_string.
  - split; [exact Hi|]. split; [|exact Hg].
    unfold phase. rewrite Hst, Hq. cbn [Py.len]. rewrite length_map, Hi.
    now rewrite Nat.ltb_irrefl.
Qed.

End Questionnaire.

(** ** Initialisation, fences and the prompt as a record *)

Section TextFacts.
Import PyStr Gateway.

(** X15.  The initialisation block leaves a session whose keys are all
    present as it is, gives the initial session on an empty state, is
    idempotent, leaves every key present, and keeps a history, an index and
    an analysis that are already there. *)
Theorem initialize_keeps_session (r : RawState) (s : Session) :
  initialize_session_state (raw_of_session s) = raw_of_session s
  /\ initialize_session_state raw_empty = raw_of_session initial_session
  /\ initialize_session_state (initialize_session_state r)
     = initialize_session_state r
  /\ (exists s', session_of_raw (initialize_session_state r) = Some s')
  /\ (forall h, raw_conversation_history r = Some h ->
      raw_conversation_history (initialize_session_state r) = Some h)
  /\ (forall i, raw_current_question_index r = Some i ->
      raw_current_question_index (initialize_session_state r) = Some i)
  /\ (forall f, raw_final_analysis r = Some f ->
      raw_final_analysis (initialize_session_state r) = Some f).
Proof.
  split; [reflexivity|]. split; [reflexivity|]. split.
  - destruct r as [[?|] [?|] [?|] [?|] [?|] [?|]]; reflexivity.
  - split.
    + destruct r as [[?|] [?|] [?|] [?|] [?|] [?|]]; cbn; eauto.
    + repeat split; intros v Hv; cbn; now rewrite Hv.
Qed.

(** Replacing what does not occur changes nothing. *)
Lemma replace_absent old new s :
  occurs old s = false -> replace old new s = s.
Proof.
  unfold replace. induction s as [|c s IH]; [reflexivity|].
  cbn [occurs replace_from]. intros H. apply orb_false_elim in H as [Hp Ho].
  now rewrite Hp, (IH Ho).
Qed.

Lemma occurs_empty s : occurs "" s = true.
Proof. destruct s; reflexivity. Qed.

Lemma occurs_lstrip old s : occurs old s = false -> occurs old (lstrip s) = false.
Proof.
  induction s as [|c s IH]; [auto|]. cbn [lstrip].
  destruct (isspace c); [|auto].
  cbn [occurs]. intros H. apply orb_false_elim in H as [_ Ho]. auto.
Qed.

Lemma prefix_append old a b :
  prefix old a = true -> prefix old (a ++ b) = true.
Proof.
  revert old. induction a as [|c a IH]; intros old.
  - destruct old; [intros _; apply prefix_empty|discriminate].
  - destruct old as [|x old]; [reflexivity|].
    cbn [append]. rewrite !prefix_String.
    intros H. apply andb_prop in H as [Hx Hp]. now rewrite Hx, (IH _ Hp).
Qed.

Lemma occurs_append old a b :
  occurs old a = true -> occurs old (a ++ b) = true.
Proof.
  induction a as [|c a IH].
  - cbn [occurs]. destruct old; [intros _; apply occurs_empty|discriminate].
  - cbn [occurs append]. intros H. apply orb_prop in H as [Hp|Ho].
    + change (String c (a ++ b)) with (String c a ++ b).
      now rewrite (prefix_append _ _ b Hp).
    + rewrite (IH Ho). apply orb_true_r.
Qed.

Lemma rstrip_is_prefix s : exists rest, s = rstrip s ++ rest.
Proof.
  induction s as [|c s [rest IH]]; [now exists ""|].
  cbn [rstrip]. destruct (rstrip s) as [|d r] eqn:E.
  - cbn in IH. subst rest. destruct (isspace c).
    + now exists (String c s).
    + now exists s.
  - exists rest. change (String c s = String c (String d r ++ rest)).
    now rewrite <- IH.
Qed.

Lemma occurs_rstrip old s : occurs old s = false -> occurs old (rstrip s) = false.
Proof.
  intros H. destruct (occurs old (rstrip s)) eqn:E; [|reflexivity].
  destruct (rstrip_is_prefix s) as [rest Hs].
  apply (occurs_append _ _ rest) in E. rewrite <- Hs in E. congruence.
Qed.

(** X13.  A reply that holds no [```] comes back from the cleaning as
    [strip()] leaves it. *)
Theorem unfenced_reply_is_stripped (text : string) :
  occurs "```" text = false ->
  cleaned_response text = strip text
  /\ occurs "```" (cleaned_response text) = false.
Proof.
  intros H.
  assert (Hs : occurs fence (strip text) = false).
  { unfold strip. now apply occurs_rstrip, occurs_lstrip. }
  assert (Heq : cleaned_response text = strip text).
  { unfold cleaned_response.
    rewrite (replace_absent fence_json "" _ (occurs_fence_json _ Hs)).
    now apply replace_absent. }
  split; [exact Heq|]. now rewrite Heq.
Qed.

(** Texts can be read back from their lines. *)
Lemma qa_lines_injective h1 h2 : qa_lines h1 = qa_lines h2 -> h1 = h2.
Proof.
  revert h2. induction h1 as [|[q a] h1 IH]; intros [|[q' a'] h2]; cbn;
    try discriminate; [reflexivity|].
  intros H. injection H as Hq Ha Hrest. subst. f_equal. now apply IH.
Qed.

Lemma history_str_nonempty qa h : Prompt.history_str (qa :: h) <> "".
Proof. destruct h; discriminate. Qed.

Lemma history_str_injective h1 h2 :
  forallb single_line_pair h1 = true ->
  forallb single_line_pair h2 = true ->
  Prompt.history_str h1 = Prompt.history_str h2 ->
  h1 = h2.
Proof.
  intros H1 H2 Heq.
  destruct h1 as [|qa1 h1], h2 as [|qa2 h2].
  - reflexivity.
  - exfalso. symmetry in Heq. revert Heq. apply history_str_nonempty.
  - exfalso. revert Heq. apply history_str_nonempty.
  - apply qa_lines_injective.
    rewrite <- (lines_history_str _ H1) by discriminate.
    rewrite <- (lines_history_str _ H2) by discriminate.
    now rewrite Heq.
Qed.

Lemma append_cancel_l a x y : a ++ x = a ++ y -> x = y.
Proof.
  induction a as [|c a IH]; cbn; [auto|]. intros H. injection H. auto.
Qed.

Lemma length_append a b :
  String.length (a ++ b) = String.length a + String.length b.
Proof. induction a as [|c a IH]; cbn; [reflexivity|now rewrite IH]. Qed.

Lemma append_cancel_r t x : forall y, x ++ t = y ++ t -> x = y.
Proof.
  induction x as [|c x IH]; intros [|d y] H.
  - reflexivity.
  - exfalso. apply (f_equal String.length) in H.
    cbn in H. rewrite length_append in H. lia.
  - exfalso. apply (f_equal String.length) in H.
    cbn in H. rewrite length_append in H. lia.
  - cbn in H. injection H as -> H. f_equal. now apply IH.
Qed.

(** X14.  On histories whose texts hold no line feed the analysis prompt
    determines the history: two such histories with the same prompt are the
    same. *)
Theorem analysis_prompt_injective (h1 h2 : list (string * string)) :
  forallb single_line_pair h1 = true ->
  forallb single_line_pair h2 = true ->
  Prompt.create_final_analysis_prompt h1 = Prompt.create_final_analysis_prompt h2 ->
  h1 = h2.
Proof.
  intros H1 H2 Heq. unfold Prompt.create_final_analysis_prompt in Heq.
  apply append_cancel_l, append_cancel_r in Heq.
  now apply history_str_injective.
Qed.

End TextFacts.

(** ** The further properties at the scenarios *)

(** X1 at the scenario: "1-3d" is pressed at the one question. *)
Lemma answer_recorded_witness :
  let env := Sample.env_answer in
  let s := Sample.s_asking in
  let s' := @session_after Sample.runtime env s in
  @status_of Sample.runtime env s = Exc RerunException
  /\ conversation_history s'
     = (conversation_history s ++ [(JString "Duration?", JString "1-3d")])%list
  /\ current_question_index s' = current_question_index s + 1
  /\ triage_questions s' = triage_questions s
  /\ conversation_started s' = true
  /\ final_analysis s' = final_analysis s
  /\ In (JString "1-3d") [JString "<1d"; JString "1-3d"; JString ">3d"]
  /\ gateway_calls (@output_of Sample.runtime env s) = 0.
Proof.
  apply (@answer_recorded Sample.runtime Sample.env_answer Sample.s_asking
           Sample.img1 1
           (JObject
              [("question_text", JString "Duration?");
               ("options", JList [JString "<1d"; JString "1-3d"; JString ">3d"])])
           (JString "Duration?")
           (JList [JString "<1d"; JString "1-3d"; JString ">3d"]) 2
           [JString "<1d"; JString "1-3d"; JString ">3d"] (JString "1-3d"));
    try reflexivity.
  cbn. lia.
Defined.

(** X2 at the scenario: from the session that asks, an answer and a rerun. *)
Lemma history_append_only_witness :
  let s := fst (@run_passes Sample.runtime Cases.passes_to_asking
                  initial_session) in
  let envs := [Sample.env_answer; rerun_env Sample.env_answer] in
  exists added,
    conversation_history (fst (@run_passes Sample.runtime envs s))
    = (conversation_history s ++ added)%list
    /\ List.length added <= List.length envs
    /\ current_question_index (fst (@run_passes Sample.runtime envs s))
       = current_question_index s + List.length added.
Proof.
  apply (@history_append_only Sample.runtime).
  apply (@run_passes_reachable Sample.runtime Cases.passes_to_asking).
  constructor.
Defined.

(** X3 at the scenario: after the analysis, a start and an answer are tried. *)
Lemma complete_is_final_witness :
  let s := fst (@run_passes Sample.runtime Cases.passes_to_complete
                  initial_session) in
  let envs := [Sample.env_start_duration; Sample.env_answer] in
  fst (@run_passes Sample.runtime envs s) = s
  /\ gateway_calls (snd (@run_passes Sample.runtime envs s)) = 0.
Proof.
  apply (@complete_is_final Sample.runtime).
  - apply (@run_passes_reachable Sample.runtime Cases.passes_to_complete).
    constructor.
  - vm_compute. discriminate.
Defined.

(** X5 at the scenario: a second file in the uploader when the triage is
    started. *)
Lemma gateway_gets_stored_image_witness :
  let env := Cases.env_start_other_file in
  let s := Sample.s_uploaded in
  hd_error (@output_of Sample.runtime env s) = Some (StImage Sample.img2)
  /\ image (@session_after Sample.runtime env s) = Some Sample.img1
  /\ (forall p i, In (GeminiJSON p i) (@output_of Sample.runtime env s) ->
      i = Some Sample.img1)
  /\ (forall p i, In (GeminiText p i) (@output_of Sample.runtime env s) ->
      i = Some Sample.img1).
Proof.
  apply (@gateway_gets_stored_image Sample.runtime Cases.env_start_other_file
           Sample.s_uploaded Sample.img1 Sample.img2); reflexivity.
Defined.

(** X6 at the scenario: the model answers with prose. *)
Lemma no_rerun_no_change_witness :
  let env := Sample.env_start_garbage in
  let s := Sample.s_uploaded in
  @session_after Sample.runtime env s = after_upload env s
  /\ conversation_history (@session_after Sample.runtime env s)
     = conversation_history s
  /\ current_question_index (@session_after Sample.runtime env s)
     = current_question_index s
  /\ triage_questions (@session_after Sample.runtime env s) = triage_questions s
  /\ conversation_started (@session_after Sample.runtime env s)
     = conversation_started s
  /\ final_analysis (@session_after Sample.runtime env s) = final_analysis s.
Proof.
  apply (@no_rerun_no_change Sample.runtime Sample.env_start_garbage
           Sample.s_uploaded).
  vm_compute. discriminate.
Defined.

(** X7 at the scenario: a second start is tried while the question is asked. *)
Lemma questions_frozen_witness :
  let envs := [Sample.env_start_no_questions; Sample.env_answer] in
  triage_questions (fst (@run_passes Sample.runtime envs Sample.s_asking))
  = triage_questions Sample.s_asking
  /\ (forall p i,
        ~ In (GeminiJSON p i) (snd (@run_passes Sample.runtime envs Sample.s_asking))).
Proof.
  apply (@questions_frozen Sample.runtime Sample.s_asking).
  left. reflexivity.
Defined.

(** X8 at the scenario: the file is gone while the analysis is pending. *)
Lemma no_file_no_progress_witness :
  let env := Cases.env_no_file_pressing in
  let s := Sample.s_answered in
  @session_after Sample.runtime env s = s
  /\ gateway_calls (@output_of Sample.runtime env s) = 0
  /\ @status_of Sample.runtime env s <> Exc RerunException.
Proof.
  apply (@no_file_no_progress Sample.runtime Cases.env_no_file_pressing
           Sample.s_answered).
  intros img. discriminate.
Defined.

(** X9 at the scenario: a question without options. *)
Lemma malformed_question_raises_witness :
  @run_script Sample.runtime Sample.env_answer Cases.s_no_options
  = (Exc KeyError,
     mkStore (after_upload Sample.env_answer Cases.s_no_options)
       ([StImage Sample.img1]
        ++ shown (conversation_history Cases.s_no_options))).
Proof.
  apply (@malformed_question_raises Sample.runtime Sample.env_answer
           Cases.s_no_options Sample.img1 1 Cases.question_without_options
           KeyError); try reflexivity.
  - cbn. lia.
  - right. split; [eexists; reflexivity|reflexivity].
Defined.

(** X10 at the scenario: the model returned the empty string. *)
Lemma empty_analysis_shows_placeholder_witness :
  let env := Sample.env_idle in
  let s := Cases.s_complete_empty in
  (forall text, ~ In (StMarkdown text) (@output_of Sample.runtime env s))
  /\ (uploaded_file env <> BadFile ->
      In (StInfo analysis_placeholder) (@output_of Sample.runtime env s))
  /\ gateway_calls (@output_of Sample.runtime env s) = 0
  /\ final_analysis (@session_after Sample.runtime env s) = Some ""
  /\ phase (@session_after Sample.runtime env s) = Some Complete.
Proof.
  apply (@empty_analysis_shows_placeholder Sample.runtime Sample.env_idle
           Cases.s_complete_empty); reflexivity.
Defined.

(** X11 at the scenario: the model answers with the empty object. *)
Lemma no_questions_straight_to_analysis_witness :
  let env := Cases.env_start_empty_object in
  let s1 := @session_after Sample.runtime env Sample.s_uploaded in
  let s2 := @session_after Sample.runtime (rerun_env env) s1 in
  let bare_prompt := Prompt.analysis_head ++ Prompt.analysis_tail in
  phase s1 = Some AnalysisPending
  /\ conversation_history s1 = []
  /\ narrative (@output_of Sample.runtime (rerun_env env) s1)
     = [GeminiText bare_prompt (image s1)]
  /\ final_analysis s2
     = Some (Gateway.text_reply env bare_prompt (image s1))
  /\ phase s2 = Some Complete.
Proof.
  apply (@no_questions_straight_to_analysis Sample.runtime
           Cases.env_start_empty_object Sample.s_uploaded Sample.img1 []);
    reflexivity.
Defined.

(** X12 at the scenario: two questions, two answers. *)
Lemma questionnaire_answered_witness :
  let s0 :=
    commit_triage (JList (map question Cases.specs_two))
      (store_image Sample.img1 initial_session) in
  let run :=
    @run_passes Sample.runtime
      (map (choosing Sample.img1 (GenText "Analysis text")) Cases.choices_two)
      s0 in
  conversation_history (fst run)
  = map answered (combine Cases.specs_two Cases.choices_two)
  /\ @transcript Sample.runtime (conversation_history (fst run))
     = map (fun qc => (fst (fst qc), snd qc))
         (combine Cases.specs_two Cases.choices_two)
  /\ current_question_index (fst run) = List.length Cases.specs_two
  /\ phase (fst run) = Some AnalysisPending
  /\ gateway_calls (snd run) = 0.
Proof.
  apply (@questionnaire_answered Sample.runtime Sample.img1
           (GenText "Analysis text") Cases.specs_two Cases.choices_two).
  apply Forall2_cons; [right; left; reflexivity|].
  apply Forall2_cons; [right; left; reflexivity|].
  apply Forall2_nil.
Defined.

(** X13 at the scenario: a bare object between blanks. *)
Lemma unfenced_reply_is_stripped_witness :
  Gateway.cleaned_response "  {}  " = PyStr.strip "  {}  "
  /\ PyStr.occurs "```" (Gateway.cleaned_response "  {}  ") = false.
Proof.
  apply (unfenced_reply_is_stripped "  {}  "). reflexivity.
Defined.

(** X14 at the scenario: one pair. *)
Lemma analysis_prompt_injective_witness :
  [("Duration?", "1-3d")] = [("Duration?", "1-3d")].
Proof.
  apply (analysis_prompt_injective [("Duration?", "1-3d")]
           [("Duration?", "1-3d")]); reflexivity.
Defined.
